(** * BrandBoost: content generation with templated fallback

    A shallow embedding of [utils/prompt_templates.py],
    [utils/generator.py] and of [create_roi_calculation] from
    [utils/visualization.py], and the properties of the specification
    that are settled on it.

    Python [str] values are modelled as [string]: the UTF-8 encoding of
    the text, one byte per [ascii] (this file is UTF-8, so the literals
    of the tables are the encodings of the source's literals).  Python
    [dict]s are [gmap]s; a missing key raises [KeyError].  A product
    record maps the names of its attributes to texts, as the catalog
    gives them.  Exceptions are values of [exn], and a computation that
    may raise returns a [result].  The counters of a generator live in
    a dictionary object of a heap, so that a copy of it is another
    object; the hosted model, the clock and the file system belong to
    the world the generator runs in. *)

From Stdlib Require Import ZArith QArith Qround Lqa String Ascii List Lia.
From stdpp Require Import base option gmap strings pretty.

(** ** Python strings *)

Module PyStr.

Local Open Scope N_scope.

Definition code (c : ascii) : N := N_of_ascii c.

(** Code points below U+0080 are one byte in UTF-8. *)
Definition is_ascii (c : ascii) : bool := code c <? 128.

(** The one-byte characters for which [str.isspace] holds:
    U+0009..U+000D, U+001C..U+001F and U+0020. *)
Definition is_space1 (c : ascii) : bool :=
  ((9 <=? code c) && (code c <=? 13)) || ((28 <=? code c) && (code c <=? 32)).

(** U+0085 and U+00A0, encoded [C2 85] and [C2 A0]. *)
Definition is_space2 (c d : ascii) : bool :=
  (code c =? 194) && ((code d =? 133) || (code d =? 160)).

(** U+1680 ([E1 9A 80]); U+2000..U+200A, U+2028, U+2029, U+202F
    ([E2 80 80..8A], [E2 80 A8], [E2 80 A9], [E2 80 AF]); U+205F
    ([E2 81 9F]); U+3000 ([E3 80 80]). *)
Definition is_space3 (c d e : ascii) : bool :=
  ((code c =? 225) && (code d =? 154) && (code e =? 128))
  || ((code c =? 226) && (code d =? 128)
      && (((128 <=? code e) && (code e <=? 138))
          || (code e =? 168) || (code e =? 169) || (code e =? 175)))
  || ((code c =? 226) && (code d =? 129) && (code e =? 159))
  || ((code c =? 227) && (code d =? 128) && (code e =? 128)).

(** Number of bytes of the whitespace character [s] starts with, [0]
    when it starts with none. *)
Definition space_len (s : string) : nat :=
  match s with
  | EmptyString => 0%nat
  | String c r =>
      if is_ascii c then (if is_space1 c then 1%nat else 0%nat)
      else match r with
           | EmptyString => 0%nat
           | String d r' =>
               if is_space2 c d then 2%nat
               else match r' with
                    | EmptyString => 0%nat
                    | String e _ => if is_space3 c d e then 3%nat else 0%nat
                    end
           end
  end.

(** The same on a reversed string: the bytes of the last character
    come last byte first. *)
Definition space_len_rev (s : string) : nat :=
  match s with
  | EmptyString => 0%nat
  | String e r =>
      if is_ascii e then (if is_space1 e then 1%nat else 0%nat)
      else match r with
           | EmptyString => 0%nat
           | String d r' =>
               if is_space2 d e then 2%nat
               else match r' with
                    | EmptyString => 0%nat
                    | String c _ => if is_space3 c d e then 3%nat else 0%nat
                    end
           end
  end.

(** Drop leading characters as long as [len] finds one; [skip] counts
    the bytes of the current character still to drop. *)
Fixpoint drop_spaces (len : string -> nat) (s : string) (skip : nat) : string :=
  match s with
  | EmptyString => EmptyString
  | String _ r =>
      match skip with
      | S k => drop_spaces len r k
      | O => match len s with
             | O => s
             | S k => drop_spaces len r k
             end
      end
  end.

Definition lstrip (s : string) : string := drop_spaces space_len s 0.

Definition rstrip (s : string) : string :=
  String.rev (drop_spaces space_len_rev (String.rev s) 0).

(** [s.strip()] *)
Definition strip (s : string) : string := rstrip (lstrip s).

(** [s.replace(old, new)]: the occurrences of [old], found from the
    left and not overlapping, are replaced; with an empty [old], [new]
    is put before every character and at the end. *)
Fixpoint replace_go (s old new : string) (skip : nat) : string :=
  match s with
  | EmptyString => EmptyString
  | String c r =>
      match skip with
      | S k => replace_go r old new k
      | O => if String.prefix old s
             then new +:+ replace_go r old new (String.length old - 1)
             else String c (replace_go r old new 0)
      end
  end.

Fixpoint intersperse (s new : string) : string :=
  match s with
  | EmptyString => new
  | String c r => new +:+ String c (intersperse r new)
  end.

Definition str_replace (s old new : string) : string :=
  match old with
  | EmptyString => intersperse s new
  | String _ _ => replace_go s old new 0
  end.

(** [sub in s] *)
Fixpoint str_in (sub s : string) : bool :=
  String.prefix sub s
  || match s with
     | EmptyString => false
     | String _ r => str_in sub r
     end.

End PyStr.

(** ** Exceptions and results *)

Inductive exn : Type :=
| KeyError (key : string)
| ValueError (msg : string)
| IndexError (msg : string)
| AttributeError (msg : string)
| ZeroDivisionError
| FileExistsError (path : string)
| OSError (path : string)
| StopIteration
| ApiException (msg : string).

Inductive result (A : Type) : Type :=
| Ok (a : A)
| Raise (e : exn).
Arguments Ok {A} a.
Arguments Raise {A} e.

Definition rbind {A B : Type} (r : result A) (k : A -> result B) : result B :=
  match r with
  | Ok a => k a
  | Raise e => Raise e
  end.

Definition rmap {A B : Type} (f : A -> B) (r : result A) : result B :=
  rbind r (fun a => Ok (f a)).

(** [d[key]] on a dictionary. *)
Definition getitem {V : Type} (d : gmap string V) (key : string) : result V :=
  match d !! key with
  | Some v => Ok v
  | None => Raise (KeyError key)
  end.

(** ** [str.format] with keyword arguments *)

Module PyFormat.

Local Open Scope string_scope.
Local Open Scope char_scope.

Definition is_digit (c : ascii) : bool :=
  ((48 <=? N_of_ascii c) && (N_of_ascii c <=? 57))%N.

Fixpoint all_digits (s : string) : bool :=
  match s with
  | EmptyString => true
  | String c r => is_digit c && all_digits r
  end.

(** The characters that start a conversion ([!]), a format
    specification ([:]), an attribute ([.]) or an index ([[]) in a
    replacement field, and a nested brace. *)
Definition is_field_syntax (c : ascii) : bool :=
  Ascii.eqb c "!" || Ascii.eqb c ":" || Ascii.eqb c "." || Ascii.eqb c "["
  || Ascii.eqb c "{".

Fixpoint has_field_syntax (s : string) : bool :=
  match s with
  | EmptyString => false
  | String c r => is_field_syntax c || has_field_syntax r
  end.

(** The value of the replacement field [{name}].  No positional
    argument is ever passed, so an empty or numeric name is out of
    range; a plain name is looked up among the keyword arguments.  The
    templates of this repository have plain names only: a field with a
    conversion, a format specification, an attribute or an index is
    outside the modelled fragment and reported as a [ValueError]. *)
Definition field_value (name : string) (kwargs : gmap string string) : result string :=
  if has_field_syntax name then
    Raise (ValueError "replacement field outside the modelled fragment")
  else if all_digits name then
    Raise (IndexError "Replacement index out of range for positional args tuple")
  else getitem kwargs name.

(** [field] is [Some name] inside a replacement field whose name read
    so far is [name]. *)
Fixpoint format_go (t : string) (field : option string)
    (kwargs : gmap string string) : result string :=
  match t with
  | EmptyString =>
      match field with
      | None => Ok EmptyString
      | Some _ => Raise (ValueError "expected '}' before end of string")
      end
  | String c r =>
      match field with
      | None =>
          if Ascii.eqb c "{" then
            match r with
            | EmptyString => Raise (ValueError "Single '{' encountered in format string")
            | String d r' =>
                if Ascii.eqb d "{" then rmap (String "{") (format_go r' None kwargs)
                else format_go r (Some EmptyString) kwargs
            end
          else if Ascii.eqb c "}" then
            match r with
            | EmptyString => Raise (ValueError "Single '}' encountered in format string")
            | String d r' =>
                if Ascii.eqb d "}" then rmap (String "}") (format_go r' None kwargs)
                else Raise (ValueError "Single '}' encountered in format string")
            end
          else rmap (String c) (format_go r None kwargs)
      | Some name =>
          if Ascii.eqb c "}" then
            rbind (field_value name kwargs) (fun v =>
            rmap (fun rest => v +:+ rest) (format_go r None kwargs))
          else format_go r (Some (name +:+ String c EmptyString)) kwargs
      end
  end.

(** [template.format] applied to the keyword arguments [kwargs]. *)
Definition format (template : string) (kwargs : gmap string string) : result string :=
  format_go template None kwargs.

End PyFormat.

Global Instance result_ret : MRet result := @Ok.
Global Instance result_bind : MBind result := fun A B k r => rbind r k.
Global Instance result_fmap : FMap result := fun A B f r => rmap f r.

(** ** [utils/prompt_templates.py] *)

Module PromptTemplates.

Local Open Scope string_scope.

(** Base templates for different content types. *)
Definition templates : gmap string (gmap string (gmap string string)) :=
{[
    "Product Description" := {[
      "Professional" := {[
        "English" :=
"Write a professional product description for {product_name} in the {category} category. 
                Key features: {features}
                Target audience: {target_audience}
                
                Requirements:
                - Professional, informative tone
                - Highlight key features and benefits
                - Include SEO-friendly keywords
                - 150-200 words
                - Focus on value proposition and quality";
        "French" :=
"Écrivez une description de produit professionnelle pour {product_name} dans la catégorie {category}.
                Caractéristiques clés: {features}
                Public cible: {target_audience}
                
                Exigences:
                - Ton professionnel et informatif
                - Mettre en avant les caractéristiques et avantages clés
                - Inclure des mots-clés SEO
                - 150-200 mots
                - Se concentrer sur la proposition de valeur et la qualité" ]};
      "Playful" := {[
        "English" :=
"Write a playful and engaging product description for {product_name} in the {category} category.
                Key features: {features}
                Target audience: {target_audience}
                
                Requirements:
                - Fun, energetic tone with personality
                - Use creative language and emojis
                - Make it shareable and memorable
                - 120-180 words
                - Focus on excitement and user experience";
        "French" :=
"Écrivez une description de produit ludique et engageante pour {product_name} dans la catégorie {category}.
                Caractéristiques clés: {features}
                Public cible: {target_audience}
                
                Exigences:
                - Ton amusant et énergique avec de la personnalité
                - Utiliser un langage créatif et des emojis
                - Rendre partageable et mémorable
                - 120-180 mots
                - Se concentrer sur l'excitation et l'expérience utilisateur" ]};
      "Luxury" := {[
        "English" :=
"Write a sophisticated luxury product description for {product_name} in the {category} category.
                Key features: {features}
                Target audience: {target_audience}
                
                Requirements:
                - Elegant, premium tone
                - Emphasize exclusivity and craftsmanship
                - Use refined vocabulary
                - 180-220 words
                - Focus on quality, prestige, and sophistication";
        "French" :=
"Écrivez une description de produit de luxe sophistiquée pour {product_name} dans la catégorie {category}.
                Caractéristiques clés: {features}
                Public cible: {target_audience}
                
                Exigences:
                - Ton élégant et premium
                - Souligner l'exclusivité et l'artisanat
                - Utiliser un vocabulaire raffiné
                - 180-220 mots
                - Se concentrer sur la qualité, le prestige et la sophistication" ]};
      "Casual" := {[
        "English" :=
"Write a casual, friendly product description for {product_name} in the {category} category.
                Key features: {features}
                Target audience: {target_audience}
                
                Requirements:
                - Conversational, approachable tone
                - Use everyday language
                - Be relatable and down-to-earth
                - 130-170 words
                - Focus on practical benefits and ease of use";
        "French" :=
"Écrivez une description de produit décontractée et amicale pour {product_name} dans la catégorie {category}.
                Caractéristiques clés: {features}
                Public cible: {target_audience}
                
                Exigences:
                - Ton conversationnel et accessible
                - Utiliser un langage quotidien
                - Être relatable et terre-à-terre
                - 130-170 mots
                - Se concentrer sur les avantages pratiques et la facilité d'utilisation" ]} ]};
    "Social Post" := {[
      "Professional" := {[
        "English" :=
"Create a professional social media post for {product_name} in the {category} category.
                Key features: {features}
                Target audience: {target_audience}
                
                Requirements:
                - Professional yet engaging tone
                - Include relevant hashtags
                - Call-to-action
                - 100-150 words
                - Platform-agnostic (works for LinkedIn, Facebook, Twitter)";
        "French" :=
"Créez un post de médias sociaux professionnel pour {product_name} dans la catégorie {category}.
                Caractéristiques clés: {features}
                Public cible: {target_audience}
                
                Exigences:
                - Ton professionnel mais engageant
                - Inclure des hashtags pertinents
                - Appel à l'action
                - 100-150 mots
                - Indépendant de la plateforme (fonctionne pour LinkedIn, Facebook, Twitter)" ]};
      "Playful" := {[
        "English" :=
"Create a fun, engaging social media post for {product_name} in the {category} category.
                Key features: {features}
                Target audience: {target_audience}
                
                Requirements:
                - Playful, energetic tone with emojis
                - Creative hashtags
                - Strong call-to-action
                - 80-120 words
                - Highly shareable content";
        "French" :=
"Créez un post de médias sociaux amusant et engageant pour {product_name} dans la catégorie {category}.
                Caractéristiques clés: {features}
                Public cible: {target_audience}
                
                Exigences:
                - Ton ludique et énergique avec des emojis
                - Hashtags créatifs
                - Appel à l'action fort
                - 80-120 mots
                - Contenu hautement partageable" ]};
      "Luxury" := {[
        "English" :=
"Create a sophisticated luxury social media post for {product_name} in the {category} category.
                Key features: {features}
                Target audience: {target_audience}
                
                Requirements:
                - Elegant, aspirational tone
                - Premium hashtags
                - Exclusive feel
                - 100-140 words
                - Focus on exclusivity and quality";
        "French" :=
"Créez un post de médias sociaux de luxe sophistiqué pour {product_name} dans la catégorie {category}.
                Caractéristiques clés: {features}
                Public cible: {target_audience}
                
                Exigences:
                - Ton élégant et inspirant
                - Hashtags premium
                - Sentiment d'exclusivité
                - 100-140 mots
                - Se concentrer sur l'exclusivité et la qualité" ]};
      "Casual" := {[
        "English" :=
"Create a casual, relatable social media post for {product_name} in the {category} category.
                Key features: {features}
                Target audience: {target_audience}
                
                Requirements:
                - Conversational, friendly tone
                - Relatable hashtags
                - Easy-going call-to-action
                - 90-130 words
                - Authentic and approachable";
        "French" :=
"Créez un post de médias sociaux décontracté et relatable pour {product_name} dans la catégorie {category}.
                Caractéristiques clés: {features}
                Public cible: {target_audience}
                
                Exigences:
                - Ton conversationnel et amical
                - Hashtags relatables
                - Appel à l'action décontracté
                - 90-130 mots
                - Authentique et accessible" ]} ]};
    "Email" := {[
      "Professional" := {[
        "English" :=
"Write a professional email marketing content for {product_name} in the {category} category.
                Key features: {features}
                Target audience: {target_audience}
                
                Requirements:
                - Professional, trustworthy tone
                - Clear subject line suggestion
                - Compelling body content
                - Strong call-to-action
                - 200-300 words
                - Focus on benefits and value";
        "French" :=
"Écrivez un contenu d'email marketing professionnel pour {product_name} dans la catégorie {category}.
                Caractéristiques clés: {features}
                Public cible: {target_audience}
                
                Exigences:
                - Ton professionnel et digne de confiance
                - Suggestion d'objet claire
                - Contenu de corps convaincant
                - Appel à l'action fort
                - 200-300 mots
                - Se concentrer sur les avantages et la valeur" ]};
      "Playful" := {[
        "English" :=
"Write a fun, engaging email marketing content for {product_name} in the {category} category.
                Key features: {features}
                Target audience: {target_audience}
                
                Requirements:
                - Energetic, fun tone
                - Creative subject line
                - Engaging storytelling
                - Exciting call-to-action
                - 180-250 words
                - Focus on excitement and engagement";
        "French" :=
"Écrivez un contenu d'email marketing amusant et engageant pour {product_name} dans la catégorie {category}.
                Caractéristiques clés: {features}
                Public cible: {target_audience}
                
                Exigences:
                - Ton énergique et amusant
                - Objet créatif
                - Storytelling engageant
                - Appel à l'action excitant
                - 180-250 mots
                - Se concentrer sur l'excitation et l'engagement" ]};
      "Luxury" := {[
        "English" :=
"Write a sophisticated luxury email marketing content for {product_name} in the {category} category.
                Key features: {features}
                Target audience: {target_audience}
                
                Requirements:
                - Elegant, premium tone
                - Exclusive subject line
                - Sophisticated language
                - Refined call-to-action
                - 220-320 words
                - Focus on exclusivity and prestige";
        "French" :=
"Écrivez un contenu d'email marketing de luxe sophistiqué pour {product_name} dans la catégorie {category}.
                Caractéristiques clés: {features}
                Public cible: {target_audience}
                
                Exigences:
                - Ton élégant et premium
                - Objet exclusif
                - Langage sophistiqué
                - Appel à l'action raffiné
                - 220-320 mots
                - Se concentrer sur l'exclusivité et le prestige" ]};
      "Casual" := {[
        "English" :=
"Write a casual, friendly email marketing content for {product_name} in the {category} category.
                Key features: {features}
                Target audience: {target_audience}
                
                Requirements:
                - Conversational, approachable tone
                - Friendly subject line
                - Personal touch
                - Easy-going call-to-action
                - 190-280 words
                - Focus on relatability and ease";
        "French" :=
"Écrivez un contenu d'email marketing décontracté et amical pour {product_name} dans la catégorie {category}.
                Caractéristiques clés: {features}
                Public cible: {target_audience}
                
                Exigences:
                - Ton conversationnel et accessible
                - Objet amical
                - Touche personnelle
                - Appel à l'action décontracté
                - 190-280 mots
                - Se concentrer sur la relatabilité et la facilité" ]} ]} ]}.

Definition get_prompt_template (content_type tone language : string) : result string :=
  by_tone ← getitem templates content_type;
  by_language ← getitem by_tone tone;
  getitem by_language language.

Definition recommendations : gmap string (gmap string string) :=
{[
    "Product Description" := {[
      "Professional" :=
"Professional tone is recommended for product pages to boost SEO and build credibility with customers.";
      "Playful" :=
"Playful tone works great for lifestyle products and social media integration to increase engagement.";
      "Luxury" :=
"Luxury tone is perfect for premium products to justify higher prices and attract affluent customers.";
      "Casual" :=
"Casual tone helps make products more approachable and relatable to everyday consumers." ]};
    "Social Post" := {[
      "Professional" :=
"Professional tone is ideal for LinkedIn and B2B platforms to maintain brand authority.";
      "Playful" :=
"Playful tone is best for social media campaigns to increase engagement and shareability.";
      "Luxury" :=
"Luxury tone creates aspirational content that drives premium brand perception.";
      "Casual" :=
"Casual tone builds authentic connections and encourages user-generated content." ]};
    "Email" := {[
      "Professional" :=
"Professional tone builds trust and is perfect for transactional and informational emails.";
      "Playful" :=
"Playful tone increases open rates and engagement in promotional campaigns.";
      "Luxury" :=
"Luxury tone creates exclusivity and drives high-value customer actions.";
      "Casual" :=
"Casual tone improves deliverability and creates personal connections with subscribers." ]} ]}.

Definition get_recommendations (content_type tone : string) : result string :=
  by_tone ← getitem recommendations content_type;
  getitem by_tone tone.

End PromptTemplates.

(** ** Numbers *)

Module PyNum.

Local Open Scope Q_scope.

(** [a / b] on numbers: true division, which raises on a zero divisor.
    Python computes it on floats; the model computes on rationals. *)
Definition truediv (a b : Q) : result Q :=
  if Qeq_bool b 0 then Raise ZeroDivisionError else Ok (a / b).

(** [max(a, b)]: the first argument unless the second is larger. *)
Definition max_Z (a b : Z) : Z := if (a <? b)%Z then b else a.

(** Nearest integer, ties to the even one. *)
Definition round_half_even (q : Q) : Z :=
  let f := Qfloor q in
  match Qcompare (q - inject_Z f) (1 # 2) with
  | Lt => f
  | Gt => (f + 1)%Z
  | Eq => if Z.even f then f else (f + 1)%Z
  end.

(** [round(q, 1)].  Python rounds the float, the model the rational:
    the two agree on the numbers with at most one decimal, which are
    the ones the counters of a generator give. *)
Definition round1 (q : Q) : Q := inject_Z (round_half_even (q * 10)) / 10.

(** [int(q)]: truncation towards zero. *)
Definition int_of (q : Q) : Z := Z.quot (Qnum q) (Zpos (Qden q)).

End PyNum.

(** ** Results of the generator *)

Record Metadata : Type := {
  meta_product_name : string;
  meta_content_type : string;
  meta_tone : string;
  meta_language : string;
  meta_timestamp : Q;
  (** the [error] key, present on the error result only; it holds
      [str(e)] of the exception kept here *)
  meta_error : option exn
}.

Record GenerationResult : Type := {
  res_content : string;
  res_generation_time : Q;
  res_recommendations : string;
  res_metadata : Metadata
}.

Record Kpis : Type := {
  time_saved_hours : Q;
  cost_saved_usd : Z;
  generations_count : Z;
  avg_time_per_generation : Q
}.


(** ** [create_roi_calculation] of [utils/visualization.py] *)

Module Visualization.

Import PyNum.
Local Open Scope Q_scope.



End Visualization.

(** ** The world the generator runs in *)

(** What Streamlit is asked to show. *)
Inductive ui_event : Type :=
| StWarning (msg : string)
| StErrorGenerating (e : exn)
| StErrorExporting (e : exn).

(** What one call of the hosted model does: it returns a text ([None]
    stands for an absent result) or raises. *)
Inductive api_outcome : Type :=
| Returns (response : option string)
| Raises (e : exn).

(** A reference to a dictionary object of the heap. *)
Definition ref : Type := nat.

Record world : Type := {
  (** the dictionary objects, by reference *)
  heap : list (gmap string Z);
  (** the prompts sent to the hosted model, latest first *)
  api_log : list string;
  (** how many times the clock has been read *)
  clock : nat;
  (** the Streamlit messages, latest first *)
  ui : list ui_event;
  (** the regular files and their contents, and the directories *)
  files : gmap string string;
  dirs : gset string
}.

Definition set_heap (h : list (gmap string Z)) (w : world) : world :=
  {| heap := h; api_log := api_log w; clock := clock w; ui := ui w;
     files := files w; dirs := dirs w |}.

Definition push_api (prompt : string) (w : world) : world :=
  {| heap := heap w; api_log := prompt :: api_log w; clock := clock w; ui := ui w;
     files := files w; dirs := dirs w |}.

Definition tick (w : world) : world :=
  {| heap := heap w; api_log := api_log w; clock := S (clock w); ui := ui w;
     files := files w; dirs := dirs w |}.

Definition push_ui (ev : ui_event) (w : world) : world :=
  {| heap := heap w; api_log := api_log w; clock := clock w; ui := ev :: ui w;
     files := files w; dirs := dirs w |}.

Definition set_fs (fs : gmap string string) (ds : gset string) (w : world) : world :=
  {| heap := heap w; api_log := api_log w; clock := clock w; ui := ui w;
     files := fs; dirs := ds |}.

Definition empty_world : world :=
  {| heap := []; api_log := []; clock := 0; ui := []; files := ∅; dirs := ∅ |}.

(** Computations that read and change the world and may raise. *)
Definition M (A : Type) : Type := world -> result A * world.

Global Instance M_ret : MRet M := fun A a w => (Ok a, w).
Global Instance M_bind : MBind M := fun A B k m w =>
  match m w with
  | (Ok a, w') => k a w'
  | (Raise e, w') => (Raise e, w')
  end.

(** A pure computation that may raise. *)
Definition lift {A : Type} (r : result A) : M A := fun w => (r, w).

Definition raise {A : Type} (e : exn) : M A := lift (Raise e).

(** [try: body / except Exception as e: handler e] *)
Definition try_except {A : Type} (body : M A) (handler : exn -> M A) : M A :=
  fun w =>
    match body w with
    | (Ok a, w') => (Ok a, w')
    | (Raise e, w') => handler e w'
    end.

Module Heap.

(** A new dictionary object. *)
Definition alloc (d : gmap string Z) : M ref :=
  fun w => (Ok (length (heap w)), set_heap (heap w ++ [d]) w).

(** The dictionary a reference denotes; every reference the program
    holds is allocated, and the model reads any other as empty. *)
Definition deref (l : ref) (w : world) : gmap string Z :=
  default ∅ (heap w !! l).

(** [d[key]] *)
Definition dict_getitem (l : ref) (key : string) : M Z :=
  fun w => (getitem (deref l w) key, w).

(** [d[key] = v] *)
Definition dict_setitem (l : ref) (key : string) (v : Z) : M unit :=
  fun w => (Ok tt, set_heap (<[l := <[key := v]> (deref l w)]> (heap w)) w).

(** [d[key] += v] *)
Definition dict_iadd (l : ref) (key : string) (v : Z) : M unit :=
  old ← dict_getitem l key;
  dict_setitem l key (old + v)%Z.

(** Any change made to a dictionary in place ([d[key] = v],
    [del d[key]], [d.clear()], [d.update(...)]): it now holds [d']. *)
Definition dict_mutate (l : ref) (d' : gmap string Z) : M unit :=
  fun w => (Ok tt, set_heap (<[l := d']> (heap w)) w).

(** [d.copy()] *)
Definition dict_copy (l : ref) : M ref :=
  fun w => alloc (deref l w) w.

End Heap.

(** ** [utils/generator.py] *)

Record ContentGenerator : Type := {
  (** [self.generation_stats], a dictionary of the heap *)
  generation_stats : ref
}.

Module Generator.

Import PyStr PyFormat PyNum PromptTemplates Heap.
Local Open Scope string_scope.

Section Environment.

(** The hosted model: what its call answers to a prompt, given how
    many calls were made before. *)
Variable text_generation : nat -> string -> api_outcome.
(** The clock: the value of each successive reading of [time.time()]
    (a float in Python, a rational here). *)
Variable time_time : nat -> Q.
(** Whether the operating system lets a path be created or opened
    for writing (permissions, an existing parent directory, free
    space). *)
Variable can_write : string -> bool.

(** [time.time()] *)
Definition now : M Q := fun w => (Ok (time_time (clock w)), tick w).

(** [st.warning], [st.error] *)
Definition st (ev : ui_event) : M unit := fun w => (Ok tt, push_ui ev w).

(** [self.client.text_generation(prompt, ...)] *)
Definition client_text_generation (prompt : string) : M (option string) := fun w =>
  match text_generation (length (api_log w)) prompt with
  | Returns response => (Ok response, push_api prompt w)
  | Raises e => (Raise e, push_api prompt w)
  end.

(** [__init__] *)
Definition __init__ : M ContentGenerator :=
  stats ← alloc {[ "total_generations" := 0%Z;
                   "total_time_saved" := 0%Z;
                   "total_cost_saved" := 0%Z ]};
  mret {| generation_stats := stats |}.

(** Fallback content templates. *)
Definition fallback_templates (product_name category features target_audience : string)
    : gmap string (gmap string (gmap string string)) :=
{[
    "Product Description" := {[
      "Professional" := {[
        "English" :=
          "Introducing " +:+ product_name +:+ ", a premium " +:+ category +:+ " designed for " +:+ target_audience +:+ ". This exceptional product features " +:+ str_replace features ";" ", " +:+ ". Experience the perfect blend of quality and innovation with " +:+ product_name +:+ ".";
        "French" :=
          "Présentation de " +:+ product_name +:+ ", un " +:+ category +:+ " premium conçu pour " +:+ target_audience +:+ ". Ce produit exceptionnel présente " +:+ str_replace features ";" ", " +:+ ". Découvrez le parfait équilibre entre qualité et innovation avec " +:+ product_name +:+ "." ]};
      "Playful" := {[
        "English" :=
          "🎉 Meet " +:+ product_name +:+ " - the " +:+ category +:+ " that's about to become your new obsession! Perfect for " +:+ target_audience +:+ ", it's packed with " +:+ str_replace features ";" ", " +:+ ". Get ready to fall in love! 💕";
        "French" :=
          "🎉 Rencontrez " +:+ product_name +:+ " - le " +:+ category +:+ " qui va devenir votre nouvelle obsession ! Parfait pour " +:+ target_audience +:+ ", il est rempli de " +:+ str_replace features ";" ", " +:+ ". Préparez-vous à tomber amoureux ! 💕" ]};
      "Luxury" := {[
        "English" :=
          "Indulge in the exquisite " +:+ product_name +:+ ", a distinguished " +:+ category +:+ " crafted for discerning " +:+ target_audience +:+ ". Featuring " +:+ str_replace features ";" ", " +:+ ", this masterpiece represents the pinnacle of luxury and sophistication.";
        "French" :=
          "Savourez l'exquis " +:+ product_name +:+ ", un " +:+ category +:+ " distingué conçu pour " +:+ target_audience +:+ " exigeants. Avec " +:+ str_replace features ";" ", " +:+ ", ce chef-d'œuvre représente le summum du luxe et de la sophistication." ]};
      "Casual" := {[
        "English" :=
          "Hey there! Check out " +:+ product_name +:+ " - it's a pretty cool " +:+ category +:+ " that " +:+ target_audience +:+ " are going to love. It's got " +:+ str_replace features ";" ", " +:+ " and honestly, it's just what you need.";
        "French" :=
          "Salut ! Découvrez " +:+ product_name +:+ " - c'est un " +:+ category +:+ " plutôt cool que " +:+ target_audience +:+ " vont adorer. Il a " +:+ str_replace features ";" ", " +:+ " et honnêtement, c'est exactement ce dont vous avez besoin." ]} ]};
    "Social Post" := {[
      "Professional" := {[
        "English" :=
          "Discover " +:+ product_name +:+ " - the " +:+ category +:+ " solution for " +:+ target_audience +:+ ". Features include " +:+ str_replace features ";" ", " +:+ ". #ProductLaunch #Innovation #Quality";
        "French" :=
          "Découvrez " +:+ product_name +:+ " - la solution " +:+ category +:+ " pour " +:+ target_audience +:+ ". Caractéristiques : " +:+ str_replace features ";" ", " +:+ ". #LancementProduit #Innovation #Qualité" ]};
      "Playful" := {[
        "English" :=
          "🚀 " +:+ product_name +:+ " is here and it's AMAZING! Perfect for " +:+ target_audience +:+ " who want " +:+ str_replace features ";" ", " +:+ ". Who's excited? 🙋‍♀️ #NewProduct #Excited #MustHave";
        "French" :=
          "🚀 " +:+ product_name +:+ " est là et c'est INCROYABLE ! Parfait pour " +:+ target_audience +:+ " qui veulent " +:+ str_replace features ";" ", " +:+ ". Qui est excité ? 🙋‍♀️ #NouveauProduit #Excité #Indispensable" ]};
      "Luxury" := {[
        "English" :=
          "Experience the epitome of luxury with " +:+ product_name +:+ ". This exclusive " +:+ category +:+ " offers " +:+ str_replace features ";" ", " +:+ " for the most discerning " +:+ target_audience +:+ ". #Luxury #Exclusive #Premium";
        "French" :=
          "Vivez l'épitomé du luxe avec " +:+ product_name +:+ ". Ce " +:+ category +:+ " exclusif offre " +:+ str_replace features ";" ", " +:+ " pour les " +:+ target_audience +:+ " les plus exigeants. #Luxe #Exclusif #Premium" ]};
      "Casual" := {[
        "English" :=
          "Just tried " +:+ product_name +:+ " and wow! 😍 Great " +:+ category +:+ " for " +:+ target_audience +:+ ". Love that it has " +:+ str_replace features ";" ", " +:+ ". Highly recommend! #Review #Recommendation";
        "French" :=
          "Je viens d'essayer " +:+ product_name +:+ " et wow ! 😍 Super " +:+ category +:+ " pour " +:+ target_audience +:+ ". J'adore qu'il ait " +:+ str_replace features ";" ", " +:+ ". Je recommande fortement ! #Avis #Recommandation" ]} ]};
    "Email" := {[
      "Professional" := {[
        "English" :=
          "Subject: Introducing " +:+ product_name +:+ " - The " +:+ category +:+ " Solution You've Been Waiting For

Dear Valued Customer,

We're excited to present " +:+ product_name +:+ ", a premium " +:+ category +:+ " designed specifically for " +:+ target_audience +:+ ". This innovative product features " +:+ str_replace features ";" ", " +:+ ".

Best regards,
The BrandBoost Team";
        "French" :=
          "Objet : Présentation de " +:+ product_name +:+ " - La solution " +:+ category +:+ " que vous attendiez

Cher client,

Nous sommes ravis de vous présenter " +:+ product_name +:+ ", un " +:+ category +:+ " premium conçu spécifiquement pour " +:+ target_audience +:+ ". Ce produit innovant présente " +:+ str_replace features ";" ", " +:+ ".

Cordialement,
L'équipe BrandBoost" ]};
      "Playful" := {[
        "English" :=
          "Subject: 🎉 " +:+ product_name +:+ " is HERE! (And it's amazing!)

Hey there!

Guess what? " +:+ product_name +:+ " just dropped and it's everything " +:+ target_audience +:+ " have been dreaming of! With " +:+ str_replace features ";" ", " +:+ ", this " +:+ category +:+ " is about to change your life! 💫

Cheers,
The BrandBoost Squad";
        "French" :=
          "Objet : 🎉 " +:+ product_name +:+ " est LÀ ! (Et c'est incroyable !)

Salut !

Devine quoi ? " +:+ product_name +:+ " vient de sortir et c'est tout ce que " +:+ target_audience +:+ " rêvaient ! Avec " +:+ str_replace features ";" ", " +:+ ", ce " +:+ category +:+ " va changer votre vie ! 💫

Salut,
L'équipe BrandBoost" ]};
      "Luxury" := {[
        "English" :=
          "Subject: Exclusive Invitation: Discover " +:+ product_name +:+ "

Dear Esteemed Client,

We are honored to invite you to experience " +:+ product_name +:+ ", our most exclusive " +:+ category +:+ " offering. Crafted for the discerning " +:+ target_audience +:+ ", it embodies " +:+ str_replace features ";" ", " +:+ ".

Warm regards,
BrandBoost Luxury Division";
        "French" :=
          "Objet : Invitation exclusive : Découvrez " +:+ product_name +:+ "

Cher client estimé,

Nous avons l'honneur de vous inviter à découvrir " +:+ product_name +:+ ", notre offre " +:+ category +:+ " la plus exclusive. Conçu pour les " +:+ target_audience +:+ " exigeants, il incarne " +:+ str_replace features ";" ", " +:+ ".

Cordialement,
Division Luxe BrandBoost" ]};
      "Casual" := {[
        "English" :=
          "Subject: You'll love " +:+ product_name +:+ "!

Hi!

Just wanted to share something cool with you - " +:+ product_name +:+ "! It's this awesome " +:+ category +:+ " that " +:+ target_audience +:+ " are totally into. The best part? It comes with " +:+ str_replace features ";" ", " +:+ ".

Take care,
The BrandBoost Team";
        "French" :=
          "Objet : Vous allez adorer " +:+ product_name +:+ " !

Salut !

Je voulais juste partager quelque chose de cool avec toi - " +:+ product_name +:+ " ! C'est ce " +:+ category +:+ " génial que " +:+ target_audience +:+ " adorent. Le meilleur ? Il vient avec " +:+ str_replace features ";" ", " +:+ ".

À bientôt,
L'équipe BrandBoost" ]} ]} ]}.

Definition _generate_fallback_content (product_data : gmap string string)
    (content_type tone language : string) : result string :=
  product_name ← getitem product_data "Product Name";
  category ← getitem product_data "Category";
  features ← getitem product_data "Features/Attributes";
  target_audience ← getitem product_data "Target Audience";
  by_tone ← getitem (fallback_templates product_name category features target_audience)
                    content_type;
  by_language ← getitem by_tone tone;
  getitem by_language language.

(** [except StopIteration] comes before [except Exception]. *)
Definition is_StopIteration (e : exn) : bool :=
  match e with
  | StopIteration => true
  | _ => false
  end.

(** [response.strip()]; an absent response has no such method. *)
Definition response_strip (response : option string) : result string :=
  match response with
  | Some text => Ok (strip text)
  | None => Raise (AttributeError "'NoneType' object has no attribute 'strip'")
  end.

Definition generate_content (self : ContentGenerator)
    (product_data : gmap string string) (content_type tone language : string)
    : M GenerationResult :=
  try_except
    ((* Get the appropriate prompt template *)
     prompt_template ← lift (get_prompt_template content_type tone language);
     (* Format the prompt with product data *)
     product_name ← lift (getitem product_data "Product Name");
     category ← lift (getitem product_data "Category");
     features ← lift (getitem product_data "Features/Attributes");
     target_audience ← lift (getitem product_data "Target Audience");
     prompt ← lift (format prompt_template
                      {[ "product_name" := product_name;
                         "category" := category;
                         "features" := features;
                         "target_audience" := target_audience ]});
     (* Generate content using Mistral 7B *)
     start_time ← now;
     response ← try_except (client_text_generation prompt)
       (fun api_error =>
          if is_StopIteration api_error then
            (* Fallback for when API returns empty response *)
            text ← lift (_generate_fallback_content product_data content_type tone language);
            mret (Some text)
          else
            st (StWarning "⚠️ API temporarily unavailable. Using fallback content generation.");;
            text ← lift (_generate_fallback_content product_data content_type tone language);
            mret (Some text));
     end_time ← now;
     let generation_time := (end_time - start_time)%Q in
     (* Update statistics *)
     dict_iadd (generation_stats self) "total_generations" 1;;
     dict_iadd (generation_stats self) "total_time_saved" 30;;
     dict_iadd (generation_stats self) "total_cost_saved" 12;;
     (* Get recommendations *)
     recommendations ← lift (get_recommendations content_type tone);
     content ← lift (response_strip response);
     name ← lift (getitem product_data "Product Name");
     timestamp ← now;
     mret {| res_content := content;
             res_generation_time := generation_time;
             res_recommendations := recommendations;
             res_metadata :=
               {| meta_product_name := name;
                  meta_content_type := content_type;
                  meta_tone := tone;
                  meta_language := language;
                  meta_timestamp := timestamp;
                  meta_error := None |} |})
    (fun e =>
       st (StErrorGenerating e);;
       name ← lift (getitem product_data "Product Name");
       timestamp ← now;
       mret {| res_content := "Sorry, there was an error generating content. Please try again.";
               res_generation_time := 0;
               res_recommendations := "Please check your internet connection and try again.";
               res_metadata :=
                 {| meta_product_name := name;
                    meta_content_type := content_type;
                    meta_tone := tone;
                    meta_language := language;
                    meta_timestamp := timestamp;
                    meta_error := Some e |} |}).

(** Get current generation statistics. *)
Definition get_generation_stats (self : ContentGenerator) : M ref :=
  dict_copy (generation_stats self).

(** Calculate key performance indicators. *)
Definition calculate_kpis (self : ContentGenerator) : M Kpis :=
  stats ← get_generation_stats self;
  total_time_saved ← dict_getitem stats "total_time_saved";
  hours ← lift (truediv (inject_Z total_time_saved) 60);
  cost_saved ← dict_getitem stats "total_cost_saved";
  count ← dict_getitem stats "total_generations";
  total_time_saved' ← dict_getitem stats "total_time_saved";
  total_generations ← dict_getitem stats "total_generations";
  average ← lift (truediv (inject_Z total_time_saved')
                          (inject_Z (max_Z total_generations 1)));
  mret {| time_saved_hours := round1 hours;
          cost_saved_usd := cost_saved;
          generations_count := count;
          avg_time_per_generation := round1 average |}.

(** [os.path.join(a, b)] of [posixpath]. *)
Definition os_path_join (a b : string) : string :=
  if String.prefix "/" b then b
  else if (String.eqb a "" || String.prefix "/" (String.rev a))%bool then a +:+ b
  else a +:+ "/" +:+ b.

(** [os.makedirs(name, exist_ok=True)] for a one-component [name]: a
    regular file of that name is in the way; a directory that is
    there is left alone; otherwise the directory is created, which
    fails with an [OSError] ([PermissionError] is one) when the
    operating system does not let it be. *)
Definition os_makedirs (name : string) : M unit := fun w =>
  match files w !! name with
  | Some _ => (Raise (FileExistsError name), w)
  | None =>
      if bool_decide (name ∈ dirs w) then (Ok tt, w)
      else if can_write name
           then (Ok tt, set_fs (files w) ({[ name ]} ∪ dirs w) w)
           else (Raise (OSError name), w)
  end.

(** [with open(filepath, "w", encoding="utf-8") as f: f.write(content)]:
    the file is opened and written, or it cannot be opened and is
    left as it was. *)
Definition write_file (filepath content : string) : M unit := fun w =>
  if can_write filepath
  then (Ok tt, set_fs (<[filepath := content]> (files w)) (dirs w) w)
  else (Raise (OSError filepath), w).

(** Export generated content to a text file; [None] and the empty
    string are both a missing [filename]. *)
Definition export_content (self : ContentGenerator) (content : string)
    (filename : option string) : M (option string) :=
  filename ← match filename with
             | Some (String c r) => mret (String c r)
             | _ =>
                 t ← now;
                 let timestamp := int_of t in
                 mret ("brandboost_content_" +:+ pretty timestamp +:+ ".txt")
             end;
  (* Ensure the reports directory exists *)
  os_makedirs "reports";;
  let filepath := os_path_join "reports" filename in
  try_except
    (write_file filepath content;;
     mret (Some filepath))
    (fun e =>
       st (StErrorExporting e);;
       mret None).

End Environment.

End Generator.

(** ** The catalog and the deployment script *)

(** A cell of a catalog row: the identifier is a number, the other
    columns are texts. *)
Inductive value : Type :=
| VInt (n : Z)
| VStr (s : string).

(** [a == b] on cells: numbers by their value, texts by their
    characters; a text equals no number. *)
Definition value_eq (a b : value) : bool :=
  match a, b with
  | VInt m, VInt n => (m =? n)%Z
  | VStr s, VStr t => String.eqb s t
  | _, _ => false
  end.

Module Products.

Local Open Scope string_scope.

(** Get a specific product by its ID: the first row whose
    [ProductID] equals [product_id], [None] when the rows run out. *)
Fixpoint get_product_by_id (products : list (gmap string value)) (product_id : value)
    : result (option (gmap string value)) :=
  match products with
  | [] => Ok None
  | product :: rest =>
      id ← getitem product "ProductID";
      if value_eq id product_id then Ok (Some product)
      else get_product_by_id rest product_id
  end.

End Products.

(** [setup_space.py] *)
Module SetupSpace.

Local Open Scope string_scope.

Definition required_files : list string :=
  [ "app.py";
    "requirements.txt";
    "README.md";
    ".gitignore";
    "utils/generator.py";
    "utils/prompt_templates.py";
    "utils/visualization.py";
    "sample_data/products.csv" ].

(** The files of [files] for which [os.path.exists] fails, in their
    order. *)
Fixpoint missing_among (path_exists : string -> bool) (files : list string)
    : list string :=
  match files with
  | [] => []
  | file :: rest =>
      if negb (path_exists file) then file :: missing_among path_exists rest
      else missing_among path_exists rest
  end.

(** Prepare files for deployment: the lines printed and the value
    returned, given which paths exist. *)
Definition prepare_files (path_exists : string -> bool) : list string * bool :=
  let missing_files := missing_among path_exists required_files in
  match missing_files with
  | [] =>
      ([ "
📁 Preparing files for deployment..."; "✅ All required files present" ], true)
  | _ :: _ =>
      (([ "
📁 Preparing files for deployment..."; "❌ Missing required files:" ]
        ++ map (fun file => "   - " +:+ file) missing_files)%list, false)
  end.

End SetupSpace.

(** ** [app.py] *)

Module App.

Import Generator Products.
Local Open Scope string_scope.

(** [st.session_state]: a key that is absent is [None]; the content
    generated last is [None] in Python until there is one. *)
Record session_state : Type := {
  ss_generator : option ContentGenerator;
  ss_generated_content : option (option GenerationResult);
  ss_products : option (list (gmap string value))
}.

(** Initialize session state variables. *)
Definition initialize_session_state (s : session_state) : M session_state :=
  generator ← match ss_generator s with
              | None => self ← __init__; mret self
              | Some self => mret self
              end;
  let generated_content := default None (ss_generated_content s) in
  let products := default [] (ss_products s) in
  mret {| ss_generator := Some generator;
          ss_generated_content := Some generated_content;
          ss_products := Some products |}.

(** [str(v)], as an f-string renders a cell. *)
Definition str (v : value) : string :=
  match v with
  | VInt n => pretty n
  | VStr s => s
  end.

(** The text a product is offered under in the select box. *)
Definition product_label (product : gmap string value) : result string :=
  name ← getitem product "Product Name";
  category ← getitem product "Category";
  Ok (str name +:+ " (" +:+ str category +:+ ")").

(** The dictionary comprehension of [product_options], the rows taken
    from the left: a later row replaces the entry of an earlier one
    with the same text. *)
Fixpoint product_options_from (product_options : gmap string value)
    (products : list (gmap string value)) : result (gmap string value) :=
  match products with
  | [] => Ok product_options
  | product :: rest =>
      label ← product_label product;
      id ← getitem product "ProductID";
      product_options_from (<[label := id]> product_options) rest
  end.

Definition product_options (products : list (gmap string value))
    : result (gmap string value) :=
  product_options_from ∅ products.

(** The product of [display_content_generator], given the text the
    user chose in the select box. *)
Definition selected_product (products : list (gmap string value))
    (selected_product_name : string) : result (option (gmap string value)) :=
  product_options ← product_options products;
  selected_product_id ← getitem product_options selected_product_name;
  get_product_by_id products selected_product_id.

(** [st.info], [st.error] of the application. *)
Inductive notice : Type :=
| StInfo (msg : string)
| StError (msg : string).

Definition fallback_info : notice :=
  StInfo "ℹ️ Using fallback content generation due to API limitations. The content is still high-quality and ready to use!".

Definition select_product_error : notice :=
  StError "❌ Please select a product first.".

(** [if selected_product:] holds for a dictionary that is not empty. *)
Definition truthy (selected_product : option (gmap string string)) : bool :=
  match selected_product with
  | Some product => negb (bool_decide (product = ∅))
  | None => false
  end.

Section Button.

Variable text_generation : nat -> string -> api_outcome.
Variable time_time : nat -> Q.

(** What the button of [display_content_generator] does when it is
    pressed: the new value of [st.session_state.generated_content]
    and what the application shows.  The selected row is given as
    [generate_content] reads it, by its text cells. *)
Definition generate_clicked (generator : ContentGenerator)
    (selected_product : option (gmap string string))
    (content_type tone language : string)
    (generated_content : option GenerationResult)
    : M (option GenerationResult * list notice) :=
  match selected_product with
  | Some product =>
      if truthy selected_product then
        result ← generate_content text_generation time_time generator product
                   content_type tone language;
        (* Show info if fallback was used *)
        match meta_error (res_metadata result) with
        | Some _ => mret (Some result, [fallback_info])
        | None => mret (Some result, [])
        end
      else mret (generated_content, [select_product_error])
  | None => mret (generated_content, [select_product_error])
  end.

End Button.

End App.

(** * Notions the properties are stated with *)

Section Notions.

Local Open Scope string_scope.

(** The closed enumerations of the selectors, as the application
    offers them. *)
Definition content_types : list string := ["Product Description"; "Social Post"; "Email"].
Definition tones : list string := ["Professional"; "Playful"; "Luxury"; "Casual"].
Definition languages : list string := ["English"; "French"].

(** A product record that has the four required attributes. *)
Definition has_required (product_data : gmap string string)
    (name category features audience : string) : Prop :=
  product_data !! "Product Name" = Some name
  /\ product_data !! "Category" = Some category
  /\ product_data !! "Features/Attributes" = Some features
  /\ product_data !! "Target Audience" = Some audience.

(** A product record that lacks a required attribute. *)
Definition lacks_required (product_data : gmap string string) : Prop :=
  product_data !! "Product Name" = None
  \/ product_data !! "Category" = None
  \/ product_data !! "Features/Attributes" = None
  \/ product_data !! "Target Audience" = None.

(** The three counters of a generator, read from its dictionary. *)
Definition stats_of (w : world) (self : ContentGenerator) : option (Z * Z * Z) :=
  d ← heap w !! generation_stats self;
  n ← d !! "total_generations";
  t ← d !! "total_time_saved";
  c ← d !! "total_cost_saved";
  Some (n, t, c).

(** The keyword arguments the prompt template is formatted with. *)
Definition prompt_kwargs (name category features audience : string)
    : gmap string string :=
  {[ "product_name" := name; "category" := category;
     "features" := features; "target_audience" := audience ]}.

(** The result of the catch-all handler. *)
Definition error_result (name content_type tone language : string) (timestamp : Q)
    (e : exn) : GenerationResult :=
  {| res_content := "Sorry, there was an error generating content. Please try again.";
     res_generation_time := 0;
     res_recommendations := "Please check your internet connection and try again.";
     res_metadata :=
       {| meta_product_name := name;
          meta_content_type := content_type;
          meta_tone := tone;
          meta_language := language;
          meta_timestamp := timestamp;
          meta_error := Some e |} |}.

(** The world after the three counters were updated. *)
Definition updated (l : ref) (d : gmap string Z) (n t c : Z) (w : world) : world :=
  let d1 := <["total_generations" := (n + 1)%Z]> d in
  let d2 := <["total_time_saved" := (t + 30)%Z]> d1 in
  let d3 := <["total_cost_saved" := (c + 12)%Z]> d2 in
  set_heap (<[l := d3]> (<[l := d2]> (<[l := d1]> (heap w)))) w.

(** A text keeps its right end when it ends with [b]. *)
Definition tail_kept (b : string) : Prop :=
  forall r, PyStr.space_len_rev (String.rev b +:+ r) = 0.

(** The right end of a text that ends with the bytes [recent] (the
    latest first) and then [s] is kept, whatever stands before. *)
Definition ends_kept (recent s : string) : Prop :=
  forall pre,
    PyStr.rstrip (pre +:+ String.rev recent +:+ s) = pre +:+ String.rev recent +:+ s.

(** One call of [generate_content], as a caller makes it. *)
Record request : Type := {
  req_product : gmap string string;
  req_content_type : string;
  req_tone : string;
  req_language : string
}.

(** A complete product and selectors of the enumerations. *)
Definition valid_request (q : request) : Prop :=
  (exists name category features audience,
      has_required (req_product q) name category features audience)
  /\ In (req_content_type q) content_types
  /\ In (req_tone q) tones
  /\ In (req_language q) languages.

(** The world after the caller changed the dictionary [l] again and
    again. *)
Fixpoint after_changes (l : ref) (changes : list (gmap string Z)) (w : world) : world :=
  match changes with
  | [] => w
  | d :: changes' => after_changes l changes' (snd (Heap.dict_mutate l d w))
  end.

Section Callers.

Variable text_generation : nat -> string -> api_outcome.
Variable time_time : nat -> Q.
Variable can_write : string -> bool.

Definition call (self : ContentGenerator) (q : request) : M GenerationResult :=
  Generator.generate_content text_generation time_time self
    (req_product q) (req_content_type q) (req_tone q) (req_language q).

(** The world after the calls were made one after the other. *)
Fixpoint after_calls (self : ContentGenerator) (qs : list request) (w : world) : world :=
  match qs with
  | [] => w
  | q :: qs' => after_calls self qs' (snd (call self q w))
  end.

(** The file name [export_content] writes to. *)
Definition export_name (filename : option string) (w : world) : string :=
  match filename with
  | Some (String c r) => String c r
  | _ => "brandboost_content_" +:+ pretty (PyNum.int_of (time_time (clock w))) +:+ ".txt"
  end.

(** The worlds a program reaches that builds the generator [self]
    and then calls its methods in any order; between the calls it
    may change the dictionaries it got from [get_generation_stats],
    which are other objects than the generator's own. *)
Inductive reachable (self : ContentGenerator) : world -> Prop :=
| reach_init (w0 w : world) :
    Generator.__init__ w0 = (Ok self, w) -> reachable self w
| reach_generate (w : world) (product_data : gmap string string)
      (content_type tone language : string) :
    reachable self w ->
    reachable self
      (snd (Generator.generate_content text_generation time_time self product_data
              content_type tone language w))
| reach_stats (w : world) :
    reachable self w -> reachable self (snd (Generator.get_generation_stats self w))
| reach_kpis (w : world) :
    reachable self w -> reachable self (snd (Generator.calculate_kpis self w))
| reach_export (w : world) (content : string) (filename : option string) :
    reachable self w ->
    reachable self
      (snd (Generator.export_content time_time can_write self content filename w))
| reach_mutate (w : world) (l : ref) (d : gmap string Z) :
    reachable self w -> l <> generation_stats self ->
    reachable self (snd (Heap.dict_mutate l d w)).

End Callers.

End Notions.

(** ** Worked examples *)

Module Examples.

Import PyNum Generator.
Local Open Scope string_scope.

Definition aqua_bottle : gmap string string :=
  {[ "Product Name" := "Aqua Bottle";
     "Category" := "Drinkware";
     "Features/Attributes" := "Insulated;BPA-free";
     "Target Audience" := "Athletes" ]}.

(** A hosted model that is down, and one that always gives the same
    answer. *)
Definition unavailable : nat -> string -> api_outcome :=
  fun _ _ => Raises (ApiException "503 Service Unavailable").
Definition answering (response : option string) : nat -> string -> api_outcome :=
  fun _ _ => Returns response.

(** A clock that advances one second per reading. *)
Definition seconds_from (start : Z) : nat -> Q :=
  fun k => inject_Z (start + Z.of_nat k).

Definition any_path_writable : string -> bool := fun _ => true.

(** The generator built first in an empty world, and that world. *)
Definition generator : ContentGenerator := {| generation_stats := 0 |}.
Definition started : world := snd (__init__ empty_world).

Definition aqua_request : request :=
  {| req_product := aqua_bottle;
     req_content_type := "Product Description";
     req_tone := "Casual";
     req_language := "English" |}.

(** The hosted model answers the first call, is down for the second
    and answers the third. *)
Definition flaky : nat -> string -> api_outcome :=
  fun k _ =>
    match k with
    | 1 => Raises (ApiException "503 Service Unavailable")
    | _ => Returns (Some "Great bottle!")
    end.

(** The world after one generation that the hosted model answered. *)
Definition after_one : world :=
  snd (generate_content (answering (Some "Great bottle!")) (seconds_from 1700000000)
         generator aqua_bottle "Product Description" "Casual" "English" started).


End Examples.

(** * Notions of the further properties *)

Section FurtherNotions.

Import PyNum Generator.
Local Open Scope string_scope.

(** What a lookup by selectors does inside and outside the
    enumerations: it succeeds on members only, and it raises the
    [KeyError] of the first selector, in the order content type, tone,
    language, that is no member. *)
Definition selected {A : Type} (r : result A) (content_type tone language : string)
    (with_language : bool) : Prop :=
  match r with
  | Ok _ =>
      In content_type content_types /\ In tone tones
      /\ (with_language = true -> In language languages)
  | Raise e =>
      (~ In content_type content_types /\ e = KeyError content_type)
      \/ (In content_type content_types /\ ~ In tone tones /\ e = KeyError tone)
      \/ (with_language = true /\ In content_type content_types /\ In tone tones
          /\ ~ In language languages /\ e = KeyError language)
  end.

(** The keys of a dictionary are those of [keys]. *)
Definition keyed {V : Type} (keys : list string) (m : gmap string V) : Prop :=
  dom m = list_to_set keys.

(** The result of a call that went through. *)
Definition normal_result (name content_type tone language content recommendations : string)
    (generation_time timestamp : Q) : GenerationResult :=
  {| res_content := content;
     res_generation_time := generation_time;
     res_recommendations := recommendations;
     res_metadata :=
       {| meta_product_name := name;
          meta_content_type := content_type;
          meta_tone := tone;
          meta_language := language;
          meta_timestamp := timestamp;
          meta_error := None |} |}.

(** The warning of line 75. *)
Definition unavailable_warning : ui_event :=
  StWarning "⚠️ API temporarily unavailable. Using fallback content generation.".

(** From [w] to [w'] no dictionary of counters but the one at [l] has
    changed: the heap holds the dictionaries of counters, those of the
    generators and the copies handed out. *)
Definition keeps (l : ref) (w w' : world) : Prop :=
  forall l', l' <> l -> heap w' !! l' = heap w !! l'.

(** A computation that keeps them, whatever the world it starts in. *)
Definition keeping (l : ref) {A : Type} (m : M A) : Prop :=
  forall w, keeps l w (snd (m w)).

(** A row whose identifier is there and is not [product_id]. *)
Definition other_id (product_id : value) (product : gmap string value) : Prop :=
  exists id, product !! "ProductID" = Some id /\ id <> product_id.

(** The identifiers of the rows, [None] for a row without one. *)
Definition product_ids (products : list (gmap string value)) : list (option value) :=
  map (fun product => product !! "ProductID") products.

(** A catalog row with the three columns the select box reads. *)
Definition listed (product : gmap string value) : Prop :=
  is_Some (product !! "Product Name")
  /\ is_Some (product !! "Category")
  /\ is_Some (product !! "ProductID").

(** Whatever [m] returns, when it returns, satisfies [P]. *)
Definition returns {A : Type} (m : M A) (P : A -> Prop) : Prop :=
  forall w a w', m w = (Ok a, w') -> P a.

(** The two shapes of a result of [generate_content]: it names the
    product and echoes the selectors, and it either has no error
    indicator and carries the recommendation of the tables, or is
    the result of the catch-all handler. *)
Definition shaped (product_data : gmap string string)
    (content_type tone language : string) (r : GenerationResult) : Prop :=
  product_data !! "Product Name" = Some (meta_product_name (res_metadata r))
  /\ meta_content_type (res_metadata r) = content_type
  /\ meta_tone (res_metadata r) = tone
  /\ meta_language (res_metadata r) = language
  /\ match meta_error (res_metadata r) with
     | None =>
         PromptTemplates.get_recommendations content_type tone
         = Ok (res_recommendations r)
     | Some e =>
         r = error_result (meta_product_name (res_metadata r)) content_type tone
               language (meta_timestamp (res_metadata r)) e
     end.

(** The components of a POSIX path, between its slashes. *)
Fixpoint components (path : string) : list string :=
  match path with
  | EmptyString => [""]
  | String c rest =>
      if Ascii.eqb c "/"%char then "" :: components rest
      else match components rest with
           | first :: others => String c first :: others
           | [] => [String c ""]
           end
  end.

(** Whether the components [cs], walked from [depth] levels below a
    directory, never climb out of that directory. *)
Fixpoint stays_below (depth : nat) (cs : list string) : bool :=
  match cs with
  | [] => true
  | c :: rest =>
      if String.eqb c ".." then
        match depth with
        | O => false
        | S d => stays_below d rest
        end
      else if (String.eqb c "." || String.eqb c "")%bool then stays_below depth rest
      else stays_below (S depth) rest
  end.

(** Whether a path, read from the working directory, names a place
    inside the directory [dir] of the working directory. *)
Definition inside (dir path : string) : bool :=
  match components path with
  | first :: rest => String.eqb first dir && stays_below 0 rest
  | [] => false
  end.

(** The path of an export without file name, when the clock is read
    in [w]. *)
Definition default_path (time_time : nat -> Q) (w : world) : string :=
  "reports/brandboost_content_" +:+ pretty (int_of (time_time (clock w))) +:+ ".txt".

End FurtherNotions.

Module FurtherExamples.

Import PyNum Generator Examples.
Local Open Scope string_scope.

(** A second generator, built after the first, and the world then. *)
Definition second_generator : ContentGenerator := {| generation_stats := 1 |}.
Definition started_twice : world := snd (__init__ started).

(** A clock that advances a quarter of a second per reading. *)
Definition quarter_seconds_from (start : Z) : nat -> Q :=
  fun k => (inject_Z start + inject_Z (Z.of_nat k) / 4)%Q.

(** The output directory can be created, and nothing can be opened
    for writing. *)
Definition only_reports_writable : string -> bool :=
  fun path => String.eqb path "reports".

(** A world where a regular file has the name of the output
    directory. *)
Definition reports_is_a_file : world := set_fs {[ "reports" := "notes" ]} ∅ started.

(** Two rows of a catalog. *)
Definition bottle_row : gmap string value :=
  {[ "ProductID" := VInt 1; "Product Name" := VStr "Aqua Bottle";
     "Category" := VStr "Drinkware" ]}.
Definition lamp_row : gmap string value :=
  {[ "ProductID" := VInt 2; "Product Name" := VStr "Desk Lamp";
     "Category" := VStr "Lighting" ]}.
(** A later row that is offered under the same text as [bottle_row]. *)
Definition new_bottle_row : gmap string value :=
  {[ "ProductID" := VInt 3; "Product Name" := VStr "Aqua Bottle";
     "Category" := VStr "Drinkware"; "Features/Attributes" := VStr "Steel" ]}.

End FurtherExamples.

(** * Properties *)

(** ** Strings *)

Section StringFacts.

Import PyStr.
Local Open Scope string_scope.

Lemma app_assoc (a b c : string) : (a +:+ b) +:+ c = a +:+ (b +:+ c).
Proof.
  induction a as [|x a IH]; [reflexivity|].
  change (String x ((a +:+ b) +:+ c) = String x (a +:+ b +:+ c)).
  by rewrite IH.
Qed.

Lemma app_nil_r (a : string) : a +:+ "" = a.
Proof.
  induction a as [|x a IH]; [reflexivity|].
  change (String x (a +:+ "") = String x a). by rewrite IH.
Qed.

Lemma rev_app_spec (s acc : string) :
  String.rev_app s acc = String.rev s +:+ acc.
Proof.
  revert acc. induction s as [|x s IH]; intros acc; [reflexivity|].
  unfold String.rev. cbn [String.rev_app].
  rewrite (IH (String x acc)), (IH (String x "")), app_assoc. reflexivity.
Qed.

Lemma rev_cons (x : ascii) (s : string) :
  String.rev (String x s) = String.rev s +:+ String x "".
Proof. unfold String.rev at 1. cbn [String.rev_app]. apply rev_app_spec. Qed.

Lemma rev_app_distr (a b : string) :
  String.rev (a +:+ b) = String.rev b +:+ String.rev a.
Proof.
  induction a as [|x a IH].
  - change ("" +:+ b) with b. by rewrite app_nil_r.
  - change (String x a +:+ b) with (String x (a +:+ b)).
    by rewrite !rev_cons, IH, app_assoc.
Qed.

Lemma rev_involutive (s : string) : String.rev (String.rev s) = s.
Proof.
  induction s as [|x s IH]; [reflexivity|].
  by rewrite rev_cons, rev_app_distr, IH.
Qed.

Lemma drop_spaces_id (len : string -> nat) (s : string) :
  len s = 0 -> drop_spaces len s 0 = s.
Proof. destruct s as [|x s]; [reflexivity|]. cbn. by intros ->. Qed.

Lemma rstrip_tail (s b : string) : tail_kept b -> rstrip (s +:+ b) = s +:+ b.
Proof.
  intros H. unfold rstrip. rewrite rev_app_distr, drop_spaces_id by apply H.
  by rewrite <- rev_app_distr, rev_involutive.
Qed.

Lemma prefix_app (sub r : string) : String.prefix sub (sub +:+ r) = true.
Proof.
  induction sub as [|x sub IH]; [by destruct r|].
  change (String x sub +:+ r) with (String x (sub +:+ r)).
  cbn [String.prefix]. by destruct (ascii_dec x x).
Qed.

Lemma str_in_here (sub r : string) : str_in sub (sub +:+ r) = true.
Proof.
  destruct (sub +:+ r) eqn:E; cbn [str_in];
    rewrite <- E, prefix_app; reflexivity.
Qed.

Lemma str_in_cons (sub : string) (c : ascii) (s : string) :
  str_in sub s = true -> str_in sub (String c s) = true.
Proof. intros H. cbn [str_in]. rewrite H. apply orb_true_r. Qed.

End StringFacts.

(** ** The tables *)

Section TableFacts.

Import PyStr PyFormat PromptTemplates Generator.
Local Open Scope string_scope.

Lemma ends_kept_nil (recent : string) :
  (forall r, space_len_rev (recent +:+ r) = 0) -> ends_kept recent "".
Proof.
  intros H pre. rewrite app_nil_r. apply rstrip_tail.
  intros r. rewrite rev_involutive. apply H.
Qed.

Lemma ends_kept_cons (recent : string) (c : ascii) (s : string) :
  ends_kept (String c recent) s -> ends_kept recent (String c s).
Proof.
  intros H pre. specialize (H pre). rewrite rev_cons, app_assoc in H. exact H.
Qed.

Lemma ends_kept_app (recent x s : string) :
  ends_kept "" s -> ends_kept recent (x +:+ s).
Proof.
  intros H pre. specialize (H (pre +:+ String.rev recent +:+ x)).
  change (String.rev "" +:+ s) with s in H.
  by rewrite !app_assoc in H.
Qed.

Lemma strip_id (s : string) : space_len s = 0 -> ends_kept "" s -> strip s = s.
Proof.
  intros Hl Hr. unfold strip, lstrip. rewrite drop_spaces_id by done.
  exact (Hr "").
Qed.

Ltac ends :=
  repeat lazymatch goal with
    | |- ends_kept _ (String _ _) => apply ends_kept_cons
    | |- ends_kept _ EmptyString => apply ends_kept_nil; intros ?; vm_compute; reflexivity
    | |- ends_kept _ _ => apply ends_kept_app
    end.

Ltac contains :=
  repeat apply str_in_cons; apply str_in_here.

Ltac content_type_cases H :=
  cbn [In content_types] in H; destruct H as [?|[?|[?|[]]]]; subst.
Ltac tone_cases H :=
  cbn [In tones] in H; destruct H as [?|[?|[?|[?|[]]]]]; subst.
Ltac language_cases H :=
  cbn [In languages] in H; destruct H as [?|[?|[]]]; subst.
Ltac selectors Hc Ht Hl :=
  content_type_cases Hc; tone_cases Ht; language_cases Hl.

(** Every entry of the template table is a non-empty text with the
    placeholder of the product name, and its interpolation succeeds
    and contains the name. *)
Lemma template_entry (content_type tone language : string) :
  In content_type content_types -> In tone tones -> In language languages ->
  exists t, get_prompt_template content_type tone language = Ok t
    /\ t <> ""
    /\ str_in "{product_name}" t = true
    /\ forall name category features audience, exists prompt,
         format t {[ "product_name" := name; "category" := category;
                     "features" := features; "target_audience" := audience ]}
           = Ok prompt
         /\ prompt <> ""
         /\ str_in name prompt = true.
Proof.
  intros Hc Ht Hl. selectors Hc Ht Hl.
  all: eexists; split; [vm_compute; reflexivity|].
  all: split; [discriminate|].
  all: split; [vm_compute; reflexivity|].
  all: intros name category features audience.
  all: eexists; split; [vm_compute; reflexivity|].
  all: split; [discriminate | contains].
Qed.

(** Every entry of the fallback table is a non-empty text that
    contains the product name and that [strip] leaves as it is. *)
Lemma fallback_entry (product_data : gmap string string)
    (name category features audience content_type tone language : string) :
  has_required product_data name category features audience ->
  In content_type content_types -> In tone tones -> In language languages ->
  exists s, _generate_fallback_content product_data content_type tone language = Ok s
    /\ s <> ""
    /\ str_in name s = true
    /\ strip s = s.
Proof.
  intros (Hn & Hy & Hf & Ha) Hc Ht Hl.
  unfold _generate_fallback_content, getitem.
  rewrite Hn, Hy, Hf, Ha. cbn [mbind result_bind rbind].
  unfold fallback_templates.
  generalize (str_replace features ";" ", "). intros features'.
  selectors Hc Ht Hl.
  all: eexists; split; [vm_compute; reflexivity|].
  all: split; [discriminate|].
  all: split; [contains|].
  all: apply strip_id; [vm_compute; reflexivity | ends].
Qed.

Lemma recommendation_entry (content_type tone : string) :
  In content_type content_types -> In tone tones ->
  exists r, get_recommendations content_type tone = Ok r /\ r <> "".
Proof.
  intros Hc Ht. content_type_cases Hc; tone_cases Ht.
  all: eexists; split; [vm_compute; reflexivity | discriminate].
Qed.

End TableFacts.

(** ** The generator *)

Ltac run :=
  cbv beta iota zeta delta
    [mbind M_bind mret M_ret lift raise try_except
     Generator.now Generator.st Generator.client_text_generation
     Heap.dict_getitem Heap.dict_setitem Heap.dict_copy Heap.alloc
     tick push_api push_ui set_heap set_fs
     result_bind result_ret rbind rmap Generator.is_StopIteration
     Generator.response_strip];
  cbn [heap api_log clock ui files dirs fst snd].

Section HeapFacts.

Import Heap.
Local Open Scope string_scope.

Lemma stats_of_inv (w : world) (self : ContentGenerator) (n t c : Z) :
  stats_of w self = Some (n, t, c) ->
  exists d, heap w !! generation_stats self = Some d
    /\ d !! "total_generations" = Some n
    /\ d !! "total_time_saved" = Some t
    /\ d !! "total_cost_saved" = Some c.
Proof.
  unfold stats_of. intros H.
  destruct (heap w !! generation_stats self) as [d|]; [|done].
  exists d. cbn in H.
  destruct (d !! "total_generations") as [n'|]; [|done]. cbn in H.
  destruct (d !! "total_time_saved") as [t'|]; [|done]. cbn in H.
  destruct (d !! "total_cost_saved") as [c'|]; [|done]. cbn in H.
  by injection H as -> -> ->.
Qed.

Lemma dict_iadd_spec (l : ref) (key : string) (v : Z) (w : world)
    (d : gmap string Z) (old : Z) :
  heap w !! l = Some d -> d !! key = Some old ->
  dict_iadd l key v w
  = (Ok tt, set_heap (<[l := <[key := (old + v)%Z]> d]> (heap w)) w).
Proof.
  intros Hl Hk. unfold dict_iadd, dict_getitem, dict_setitem, deref, getitem.
  run. rewrite Hl. cbv [default from_option id]. rewrite Hk. reflexivity.
Qed.

End HeapFacts.

Section GenerateFacts.

Import PyStr PyFormat PromptTemplates Generator Heap.
Local Open Scope string_scope.

Variable text_generation : nat -> string -> api_outcome.
Variable time_time : nat -> Q.

(** The three updates of the counters, run one after the other. *)
Ltac bump Hd Hn Ht Hc :=
  erewrite dict_iadd_spec; [|cbn [heap]; exact Hd|exact Hn];
  cbv beta iota; cbn [heap set_heap];
  erewrite dict_iadd_spec;
    [|cbn [heap set_heap]; apply list_lookup_insert_eq;
      eapply lookup_lt_Some; exact Hd
     |rewrite lookup_insert_ne by done; exact Ht];
  cbv beta iota; cbn [heap set_heap];
  erewrite dict_iadd_spec;
    [|cbn [heap set_heap]; apply list_lookup_insert_eq;
      rewrite length_insert; eapply lookup_lt_Some; exact Hd
     |rewrite !lookup_insert_ne by done; exact Hc];
  cbv beta iota; cbn [heap set_heap].

Lemma stats_of_updated (self : ContentGenerator) (d : gmap string Z) (n t c : Z)
    (w w' : world) :
  heap w !! generation_stats self = Some d ->
  heap w' = heap (updated (generation_stats self) d n t c w) ->
  stats_of w' self = Some (n + 1, t + 30, c + 12)%Z.
Proof.
  intros Hd Hw.
  assert (Hlt : generation_stats self < length (heap w))
    by (eapply lookup_lt_Some; exact Hd).
  unfold stats_of. rewrite Hw. unfold updated. cbn [heap set_heap].
  rewrite list_lookup_insert_eq by (by rewrite !length_insert).
  cbn [mbind option_bind].
  by simplify_map_eq.
Qed.

(** A call with a complete product and selectors of the enumerations:
    what it returns for each answer of the hosted model, with the
    counters updated in every case. *)
Lemma generate_valid (self : ContentGenerator) (product_data : gmap string string)
    (name category features audience content_type tone language : string)
    (w : world) (n t c : Z) :
  has_required product_data name category features audience ->
  In content_type content_types -> In tone tones -> In language languages ->
  stats_of w self = Some (n, t, c) ->
  exists tpl prompt fb rec r w',
    get_prompt_template content_type tone language = Ok tpl
    /\ format tpl (prompt_kwargs name category features audience) = Ok prompt
    /\ _generate_fallback_content product_data content_type tone language = Ok fb
    /\ get_recommendations content_type tone = Ok rec
    /\ generate_content text_generation time_time self product_data
          content_type tone language w = (Ok r, w')
    /\ stats_of w' self = Some (n + 1, t + 30, c + 12)%Z
    /\ api_log w' = prompt :: api_log w
    /\ match text_generation (length (api_log w)) prompt with
       | Returns (Some text) =>
           res_content r = strip text
           /\ res_recommendations r = rec
           /\ meta_error (res_metadata r) = None
       | Raises e =>
           res_content r = fb
           /\ res_recommendations r = rec
           /\ meta_error (res_metadata r) = None
       | Returns None =>
           r = error_result name content_type tone language
                 (time_time (S (S (clock w))))
                 (AttributeError "'NoneType' object has no attribute 'strip'")
       end.
Proof.
  intros Hreq Hct Htone Hlang Hs.
  destruct (template_entry _ _ _ Hct Htone Hlang) as (tpl & Htpl & _ & _ & Hfmt).
  destruct (Hfmt name category features audience) as (prompt & Hprompt & _).
  destruct (fallback_entry _ _ _ _ _ _ _ _ Hreq Hct Htone Hlang)
    as (fb & Hfb & _ & _ & Hstrip).
  destruct (recommendation_entry _ _ Hct Htone) as (rec & Hrec & _).
  destruct (stats_of_inv _ _ _ _ _ Hs) as (d & Hd & Hn & Ht & Hc).
  destruct Hreq as (Hname & Hcat & Hfeat & Haud).
  exists tpl, prompt, fb, rec. fold (prompt_kwargs name category features audience) in Hprompt.
  unfold generate_content, getitem.
  rewrite Htpl, Hname, Hcat, Hfeat, Haud, Hfb, Hrec.
  run. fold (prompt_kwargs name category features audience). rewrite Hprompt.
  run.
  destruct (text_generation (length (api_log w)) prompt) as [[text|]|e]; run.
  3: destruct e; run.
  all: bump Hd Hn Ht Hc; run.
  all: rewrite ?Hname, ?Hstrip; run.
  all: eexists _, _; do 5 (split; [reflexivity|]).
  all: split; [eapply stats_of_updated; [exact Hd | reflexivity]|].
  all: by repeat split.
Qed.

(** With a product name at hand the catch-all handler returns its
    result: nothing is raised, whatever else happens. *)
Lemma generate_total (self : ContentGenerator) (product_data : gmap string string)
    (name content_type tone language : string) (w : world) :
  product_data !! "Product Name" = Some name ->
  exists r w', generate_content text_generation time_time self product_data
        content_type tone language w = (Ok r, w').
Proof.
  intros Hname. unfold generate_content.
  cbv beta delta [try_except].
  match goal with
  | |- context [match ?body w with _ => _ end] => destruct (body w) as [[r|e] w1]
  end.
  - by eexists _, _.
  - unfold getitem. rewrite Hname. run. by eexists _, _.
Qed.

(** Such a call reaches the handler before the clock is read, the
    hosted model called or a counter updated; the handler then looks
    the product name up again. *)
Lemma generate_incomplete (self : ContentGenerator) (product_data : gmap string string)
    (content_type tone language : string) (w : world) :
  lacks_required product_data ->
  exists e,
    generate_content text_generation time_time self product_data content_type tone language w
    = match product_data !! "Product Name" with
      | Some name =>
          (Ok (error_result name content_type tone language (time_time (clock w)) e),
           tick (push_ui (StErrorGenerating e) w))
      | None =>
          (Raise (KeyError "Product Name"), push_ui (StErrorGenerating e) w)
      end.
Proof.
  intros Hlack. unfold generate_content, getitem.
  destruct (get_prompt_template content_type tone language) as [tpl|e0].
  2: { exists e0. run. by destruct (product_data !! "Product Name"). }
  destruct (product_data !! "Product Name") as [name|] eqn:Hname.
  2: { exists (KeyError "Product Name"). by run. }
  destruct (product_data !! "Category") as [category|] eqn:Hcat.
  2: { exists (KeyError "Category"). by run. }
  destruct (product_data !! "Features/Attributes") as [features|] eqn:Hfeat.
  2: { exists (KeyError "Features/Attributes"). by run. }
  destruct (product_data !! "Target Audience") as [audience|] eqn:Haud.
  2: { exists (KeyError "Target Audience"). by run. }
  destruct Hlack as [?|[?|[?|?]]]; congruence.
Qed.

(** No call decreases a counter: it leaves the three as they are or
    adds 1, 30 and 12. *)
Lemma generate_monotone (self : ContentGenerator) (product_data : gmap string string)
    (content_type tone language : string) (w : world) (n t c : Z) :
  stats_of w self = Some (n, t, c) ->
  let w' := snd (generate_content text_generation time_time self product_data
        content_type tone language w) in
  stats_of w' self = Some (n, t, c)
  \/ stats_of w' self = Some (n + 1, t + 30, c + 12)%Z.
Proof.
  intros Hs.
  destruct (stats_of_inv _ _ _ _ _ Hs) as (d & Hd & Hn & Ht & Hc).
  unfold generate_content, getitem.
  destruct (product_data !! "Product Name") as [name|].
  all: destruct (get_prompt_template content_type tone language) as [tpl|e0];
    [|left; exact Hs].
  2: left; exact Hs.
  destruct (product_data !! "Category") as [category|]; [|left; exact Hs].
  destruct (product_data !! "Features/Attributes") as [features|]; [|left; exact Hs].
  destruct (product_data !! "Target Audience") as [audience|]; [|left; exact Hs].
  run.
  match goal with
  | |- context [format ?a ?b] => destruct (format a b) as [prompt|e1]
  end; [|left; exact Hs].
  run.
  destruct (text_generation (length (api_log w)) prompt) as [[text|]|e]; run.
  3: destruct (_generate_fallback_content product_data content_type tone language)
       as [fb|e2]; [|destruct e; left; exact Hs].
  3: destruct e; run.
  all: bump Hd Hn Ht Hc; run.
  all: destruct (get_recommendations content_type tone) as [rec|e3]; run.
  all: right; eapply stats_of_updated; [exact Hd | reflexivity].
Qed.

End GenerateFacts.

(** ** Derived metrics *)

Section NumberFacts.

Import PyNum.
Local Open Scope Q_scope.

Lemma max_Z_ge_1 (n : Z) : (1 <= max_Z n 1)%Z.
Proof. unfold max_Z. destruct (Z.ltb_spec n 1); lia. Qed.


Lemma truediv_ok (a b : Q) : ~ b == 0 -> truediv a b = Ok (a / b).
Proof.
  intros H. unfold truediv. destruct (Qeq_bool b 0) eqn:E; [|reflexivity].
  by apply Qeq_bool_iff in E.
Qed.

Lemma inject_Z_nonzero (n : Z) : (n <> 0)%Z -> ~ inject_Z n == 0.
Proof.
  intros H E. apply H. unfold Qeq in E. cbn in E. lia.
Qed.

(** A number with at most one decimal is its own rounding. *)
Lemma round1_tenths (q : Q) (k : Z) : q * 10 == inject_Z k -> round1 q == q.
Proof.
  intros H. unfold round1, round_half_even.
  assert (Hf : Qfloor (q * 10) = k) by (rewrite H; apply Qfloor_Z).
  rewrite Hf.
  assert (Hc : Qcompare (q * 10 - inject_Z k) (1 # 2) = Lt).
  { assert (E : q * 10 - inject_Z k == 0) by (rewrite H; ring).
    by rewrite E. }
  rewrite Hc, <- H. field.
Qed.

End NumberFacts.

Section StatsFacts.

Import PyNum Generator Heap.
Local Open Scope string_scope.

(** The world after [d.copy()] of the generator's dictionary [d]. *)
Lemma get_generation_stats_spec (self : ContentGenerator) (w : world)
    (d : gmap string Z) :
  heap w !! generation_stats self = Some d ->
  get_generation_stats self w
  = (Ok (length (heap w)), set_heap (heap w ++ [d]) w).
Proof.
  intros Hd. unfold get_generation_stats, dict_copy, alloc, deref.
  by rewrite Hd.
Qed.

Lemma stats_of_heap (self : ContentGenerator) (w w' : world) :
  heap w' !! generation_stats self = heap w !! generation_stats self ->
  stats_of w' self = stats_of w self.
Proof. unfold stats_of. by intros ->. Qed.

(** The indicators are computed from the counters; no division fails. *)
Lemma calculate_kpis_spec (self : ContentGenerator) (w : world) (n t c : Z) :
  stats_of w self = Some (n, t, c) ->
  exists w',
    calculate_kpis self w
    = (Ok {| time_saved_hours := round1 (inject_Z t / 60);
             cost_saved_usd := c;
             generations_count := n;
             avg_time_per_generation :=
               round1 (inject_Z t / inject_Z (max_Z n 1)) |}, w')
    /\ heap w' !! generation_stats self = heap w !! generation_stats self.
Proof.
  intros Hs. destruct (stats_of_inv _ _ _ _ _ Hs) as (d & Hd & Hn & Ht & Hc).
  assert (Hlt : generation_stats self < length (heap w))
    by (eapply lookup_lt_Some; exact Hd).
  unfold calculate_kpis. cbv beta delta [mbind M_bind].
  rewrite (get_generation_stats_spec _ _ _ Hd).
  unfold dict_getitem, deref, getitem. run.
  rewrite list_lookup_middle by done. cbv [default from_option id].
  rewrite Hn, Ht, Hc. run.
  rewrite !truediv_ok.
  - run. eexists. split; [reflexivity|]. cbn [heap].
    by rewrite lookup_app_l.
  - apply inject_Z_nonzero. pose proof (max_Z_ge_1 n). lia.
  - done.
Qed.

End StatsFacts.

(** ** The states a generator goes through *)

Section Reachability.

Import PyNum Generator Heap.
Local Open Scope string_scope.

Variable text_generation : nat -> string -> api_outcome.
Variable time_time : nat -> Q.
Variable can_write : string -> bool.

Lemma export_content_heap (self : ContentGenerator) (content : string)
    (filename : option string) (w : world) :
  heap (snd (export_content time_time can_write self content filename w)) = heap w.
Proof.
  unfold export_content, os_makedirs, write_file.
  destruct filename as [[|ch r]|]; run.
  all: destruct (files w !! "reports"); run; [reflexivity|].
  all: destruct (bool_decide ("reports" ∈ dirs w)); run.
  all: repeat match goal with
              | |- context [can_write ?x] => destruct (can_write x); run
              end.
  all: reflexivity.
Qed.

Lemma init_stats (self : ContentGenerator) (w0 w : world) :
  __init__ w0 = (Ok self, w) -> stats_of w self = Some (0, 0, 0)%Z.
Proof.
  unfold __init__, alloc. run. intros [= <- <-].
  unfold stats_of. cbn [heap generation_stats].
  by rewrite list_lookup_middle.
Qed.

(** The counters count the completed generations: 30 minutes and 12
    currency units each. *)
Lemma reachable_stats (self : ContentGenerator) (w : world) :
  reachable text_generation time_time can_write self w ->
  exists n : Z, (0 <= n)%Z /\ stats_of w self = Some (n, 30 * n, 12 * n)%Z.
Proof.
  induction 1 as [w0 w Hi | w p ct tone lang _ (n & Hn & Hs)
                 | w _ (n & Hn & Hs) | w _ (n & Hn & Hs)
                 | w content filename _ (n & Hn & Hs)
                 | w l d _ (n & Hn & Hs) Hl].
  - exists 0%Z. split; [done|]. exact (init_stats _ _ _ Hi).
  - destruct (generate_monotone text_generation time_time self p ct tone lang w _ _ _ Hs)
      as [H|H].
    + exists n. by split.
    + exists (n + 1)%Z. split; [lia|]. rewrite H. f_equal. f_equal; [f_equal|]; lia.
  - exists n. split; [done|]. rewrite <- Hs.
    destruct (stats_of_inv _ _ _ _ _ Hs) as (d & Hd & _).
    apply stats_of_heap. rewrite (get_generation_stats_spec _ _ _ Hd).
    cbn [snd heap set_heap]. apply lookup_app_l. eapply lookup_lt_Some. exact Hd.
  - exists n. split; [done|]. rewrite <- Hs.
    destruct (calculate_kpis_spec _ _ _ _ _ Hs) as (w' & Hk & Hh).
    rewrite Hk. by apply stats_of_heap.
  - exists n. split; [done|]. rewrite <- Hs.
    apply stats_of_heap. by rewrite export_content_heap.
  - exists n. split; [done|]. rewrite <- Hs.
    apply stats_of_heap. cbn [dict_mutate snd heap set_heap].
    by apply list_lookup_insert_ne.
Qed.

End Reachability.

(** * The claims of the specification *)

Section TableClaims.

Import PyStr PyFormat PromptTemplates Generator Examples.
Local Open Scope string_scope.

(** C5, as the specification states it, fails for [getTemplate]: the
    template of a combination holds the placeholder of the product
    name, not the name of a product. *)
Lemma template_lacks_product_name :
  exists t, get_prompt_template "Product Description" "Casual" "English" = Ok t
    /\ str_in "Aqua Bottle" t = false.
Proof. eexists. split; vm_compute; reflexivity. Qed.

(** C5 (amended): for every triple of the closed enumerations the
    template, fallback and recommendation lookups succeed.  The
    template is a non-empty text that contains the placeholder
    [{product_name}], and its interpolation with a product is a
    non-empty text that contains the product name verbatim; the
    fallback content is a non-empty text that contains the product
    name verbatim; the recommendation, which does not depend on the
    language, is a non-empty text. *)
Theorem tables_total (content_type tone language : string) :
  In content_type content_types -> In tone tones -> In language languages ->
  (exists t, get_prompt_template content_type tone language = Ok t
     /\ t <> ""
     /\ str_in "{product_name}" t = true
     /\ forall name category features audience, exists prompt,
          format t (prompt_kwargs name category features audience) = Ok prompt
          /\ prompt <> ""
          /\ str_in name prompt = true)
  /\ (forall product_data name category features audience,
        has_required product_data name category features audience ->
        exists s,
          _generate_fallback_content product_data content_type tone language = Ok s
          /\ s <> ""
          /\ str_in name s = true)
  /\ (exists r, get_recommendations content_type tone = Ok r /\ r <> "").
Proof.
  intros Hc Ht Hl. split; [|split].
  - exact (template_entry _ _ _ Hc Ht Hl).
  - intros p name category features audience Hreq.
    destruct (fallback_entry _ _ _ _ _ _ _ _ Hreq Hc Ht Hl) as (s & Hs & Hne & Hin & _).
    by exists s.
  - exact (recommendation_entry _ _ Hc Ht).
Qed.

Lemma tables_total_witness :
  (exists t, get_prompt_template "Email" "Luxury" "French" = Ok t
     /\ t <> ""
     /\ str_in "{product_name}" t = true
     /\ forall name category features audience, exists prompt,
          format t (prompt_kwargs name category features audience) = Ok prompt
          /\ prompt <> ""
          /\ str_in name prompt = true)
  /\ (forall product_data name category features audience,
        has_required product_data name category features audience ->
        exists s,
          _generate_fallback_content product_data "Email" "Luxury" "French" = Ok s
          /\ s <> ""
          /\ str_in name s = true)
  /\ (exists r, get_recommendations "Email" "Luxury" = Ok r /\ r <> "").
Proof.
  apply (tables_total "Email" "Luxury" "French"); simpl; auto.
Defined.

End TableClaims.

Section GenerateClaims.

Import PyStr PyFormat PromptTemplates Generator Heap Examples.
Local Open Scope string_scope.

Variable text_generation : nat -> string -> api_outcome.
Variable time_time : nat -> Q.

(** The entry of the fallback table a call falls back to. *)
Lemma fallback_lookup (product_data : gmap string string)
    (name category features audience content_type tone language fb : string) :
  has_required product_data name category features audience ->
  _generate_fallback_content product_data content_type tone language = Ok fb ->
  exists by_tone by_language,
    fallback_templates name category features audience !! content_type = Some by_tone
    /\ by_tone !! tone = Some by_language
    /\ by_language !! language = Some fb.
Proof.
  intros (Hn & Hc & Hf & Ha). unfold _generate_fallback_content, getitem.
  rewrite Hn, Hc, Hf, Ha. run.
  destruct (fallback_templates name category features audience !! content_type)
    as [by_tone|] eqn:E1; run; [|intros [=]].
  destruct (by_tone !! tone) as [by_language|] eqn:E2; run; [|intros [=]].
  destruct (by_language !! language) as [s|] eqn:E3; [|intros [=]].
  intros [= ->]. by exists by_tone, by_language.
Qed.

(** The fallback path, on every input: for every product record with
    the four required attributes and every valid combination, if the
    call of the hosted model raises, [generate_content] returns a
    result whose content is the entry of the fallback table for that
    combination, built from
    the product's name, category, features (each semicolon replaced
    by a comma and a space) and target audience; the generation is
    counted, and the metadata of the result holds no error indicator. *)
Lemma generate_falls_back (self : ContentGenerator)
    (product_data : gmap string string)
    (name category features audience content_type tone language : string)
    (w : world) (n t c : Z) :
  has_required product_data name category features audience ->
  In content_type content_types -> In tone tones -> In language languages ->
  stats_of w self = Some (n, t, c) ->
  (forall prompt, exists e, text_generation (length (api_log w)) prompt = Raises e) ->
  exists by_tone by_language fb r w',
    fallback_templates name category features audience !! content_type = Some by_tone
    /\ by_tone !! tone = Some by_language
    /\ by_language !! language = Some fb
    /\ generate_content text_generation time_time self product_data
          content_type tone language w = (Ok r, w')
    /\ res_content r = fb
    /\ meta_error (res_metadata r) = None
    /\ stats_of w' self = Some (n + 1, t + 30, c + 12)%Z.
Proof.
  intros Hreq Hct Htone Hlang Hs Hdown.
  destruct (generate_valid text_generation time_time self _ _ _ _ _ _ _ _ w _ _ _
              Hreq Hct Htone Hlang Hs)
    as (tpl & prompt & fb & rec & r & w' & _ & _ & Hfb & _ & Hrun & Hstats & _ & Hout).
  destruct (Hdown prompt) as [e He]. rewrite He in Hout.
  destruct Hout as (Hcontent & _ & Herr).
  destruct (fallback_lookup _ _ _ _ _ _ _ _ _ Hreq Hfb) as (by_tone & by_language & H1 & H2 & H3).
  by exists by_tone, by_language, fb, r, w'.
Qed.

(** C3 (amended): a product record that has a name but lacks another
    required attribute does not make [generate_content] fail: before
    the hosted model is called, and with the counters as they were,
    the call returns the error result (placeholder content, error
    indicator set).  For every product record that has all four
    attributes, and whenever the name is present, the call never
    raises: any internal error is caught and converted into an error
    result. *)
Theorem generate_validation (self : ContentGenerator)
    (product_data : gmap string string)
    (name content_type tone language : string) (w : world) :
  product_data !! "Product Name" = Some name ->
  (exists r w', generate_content text_generation time_time self product_data
        content_type tone language w = (Ok r, w'))
  /\ (lacks_required product_data ->
      exists e w',
        generate_content text_generation time_time self product_data
              content_type tone language w
        = (Ok (error_result name content_type tone language (time_time (clock w)) e), w')
        /\ api_log w' = api_log w
        /\ heap w' = heap w).
Proof.
  intros Hname. split; [by eapply generate_total|].
  intros Hlack.
  destruct (generate_incomplete text_generation time_time self product_data
              content_type tone language w Hlack) as [e He].
  rewrite Hname in He. by eexists _, _.
Qed.

Lemma after_calls_stats (self : ContentGenerator) (qs : list request) :
  Forall valid_request qs ->
  forall (w : world) (n t c : Z),
    stats_of w self = Some (n, t, c) ->
    stats_of (after_calls text_generation time_time self qs w) self
    = Some (n + Z.of_nat (length qs), t + 30 * Z.of_nat (length qs),
            c + 12 * Z.of_nat (length qs))%Z.
Proof.
  induction 1 as [|q qs Hq _ IH]; intros w n t c Hs.
  - cbn [after_calls length Z.of_nat]. rewrite Hs. do 2 f_equal; [f_equal|]; lia.
  - destruct Hq as ((name & category & features & audience & Hreq) & Hct & Htone & Hlang).
    destruct (generate_valid text_generation time_time self _ _ _ _ _ _ _ _ w _ _ _
                Hreq Hct Htone Hlang Hs)
      as (_ & _ & _ & _ & r & w' & _ & _ & _ & _ & Hrun & Hstats & _).
    cbn [after_calls]. unfold call. rewrite Hrun. cbn [snd].
    rewrite (IH _ _ _ _ Hstats). do 2 f_equal; [f_equal|]; cbn [length]; lia.
Qed.

(** C4: every call with a complete product and valid selectors
    completes and adds exactly 1 to the generations, 30 to the minutes
    saved and 12 to the cost saved, whether the hosted model answered
    or the fallback was used; no call, whatever its arguments,
    decreases a counter; and three such calls made from counters at
    zero, as those of a new generator are, leave
    [get_generation_stats] reporting 3 generations and 90 minutes. *)
Theorem stats_count_generations (self : ContentGenerator) (w : world) (n t c : Z) :
  stats_of w self = Some (n, t, c) ->
  (forall q, valid_request q ->
     exists r w',
       call text_generation time_time self q w = (Ok r, w')
       /\ stats_of w' self = Some (n + 1, t + 30, c + 12)%Z)
  /\ (forall q,
        exists n' t' c',
          stats_of (snd (call text_generation time_time self q w)) self = Some (n', t', c')
          /\ (n <= n')%Z /\ (t <= t')%Z /\ (c <= c')%Z)
  /\ (forall q1 q2 q3,
        valid_request q1 -> valid_request q2 -> valid_request q3 ->
        n = 0%Z -> t = 0%Z ->
        exists l w',
          get_generation_stats self
          (after_calls text_generation time_time self [q1; q2; q3] w) = (Ok l, w')
          /\ deref l w' !! "total_generations" = Some 3%Z
          /\ deref l w' !! "total_time_saved" = Some 90%Z).
Proof.
  intros Hs. split; [|split].
  - intros q ((name & category & features & audience & Hreq) & Hct & Htone & Hlang).
    destruct (generate_valid text_generation time_time self _ _ _ _ _ _ _ _ w _ _ _
                Hreq Hct Htone Hlang Hs)
      as (_ & _ & _ & _ & r & w' & _ & _ & _ & _ & Hrun & Hstats & _).
    by exists r, w'.
  - intros q. unfold call.
    destruct (generate_monotone text_generation time_time self (req_product q)
                (req_content_type q) (req_tone q) (req_language q) w _ _ _ Hs)
      as [H|H]; rewrite H; eexists _, _, _; (split; [reflexivity|lia]).
  - intros q1 q2 q3 H1 H2 H3 -> ->.
    assert (Hall : Forall valid_request [q1; q2; q3]).
    { constructor; [exact H1|]. constructor; [exact H2|]. constructor; [exact H3|constructor]. }
    pose proof (after_calls_stats self _ Hall w _ _ _ Hs) as H.
    cbn [length Z.of_nat Pos.of_succ_nat Pos.succ Z.add Z.mul Pos.mul Pos.add] in H.
    destruct (stats_of_inv _ _ _ _ _ H) as (d & Hd & Hn & Ht & _).
    rewrite (get_generation_stats_spec _ _ _ Hd).
    eexists _, _. split; [reflexivity|].
    unfold deref. cbn [heap set_heap]. rewrite list_lookup_middle by done.
    by cbv [default from_option id].
Qed.

End GenerateClaims.

Section GenerateExamples.

Import PyStr PyFormat PromptTemplates Generator Heap Examples.
Local Open Scope string_scope.

(** C1: the code does not do what the claim says.  With the hosted
    model down, the content of the result is the entry of the
    fallback table, as the claim says, but the metadata holds no
    error indicator: nothing in the result tells fallback content
    from generated content, and the application, which shows its
    notice of fallback content when the result has an error
    indicator, shows none. *)
Theorem fallback_result_has_no_error_indicator :
  exists r w',
    generate_content unavailable (seconds_from 1700000000) generator aqua_bottle
      "Product Description" "Casual" "English" started = (Ok r, w')
    /\ res_content r
       = "Hey there! Check out Aqua Bottle - it's a pretty cool Drinkware that Athletes are going to love. It's got Insulated, BPA-free and honestly, it's just what you need."
    /\ meta_error (res_metadata r) = None
    /\ App.generate_clicked unavailable (seconds_from 1700000000) generator
         (Some aqua_bottle) "Product Description" "Casual" "English" None started
       = (Ok (Some r, []), w').
Proof.
  eexists _, _. split; [vm_compute; reflexivity|].
  split; [reflexivity|]. split; [reflexivity|]. vm_compute; reflexivity.
Qed.

Lemma generate_falls_back_witness :
  exists by_tone by_language fb r w',
    fallback_templates "Aqua Bottle" "Drinkware" "Insulated;BPA-free" "Athletes"
      !! "Product Description" = Some by_tone
    /\ by_tone !! "Casual" = Some by_language
    /\ by_language !! "English" = Some fb
    /\ generate_content unavailable (seconds_from 1700000000) generator aqua_bottle
         "Product Description" "Casual" "English" started = (Ok r, w')
    /\ res_content r = fb
    /\ meta_error (res_metadata r) = None
    /\ stats_of w' generator = Some (0 + 1, 0 + 30, 0 + 12)%Z.
Proof.
  apply (generate_falls_back unavailable (seconds_from 1700000000) generator
           aqua_bottle "Aqua Bottle" "Drinkware" "Insulated;BPA-free" "Athletes"
           "Product Description" "Casual" "English" started 0 0 0).
  - repeat split; vm_compute; reflexivity.
  - simpl; auto.
  - simpl; auto.
  - simpl; auto.
  - vm_compute; reflexivity.
  - intros prompt. eexists. reflexivity.
Defined.

(** C2: the code does not do what the claim says.  A hosted model that
    returns the empty text is taken as a success: the content of the
    result is the empty text, not the entry of the fallback table,
    and nothing marks the result as an error. *)
Theorem empty_response_becomes_the_content :
  exists r w' fb,
    generate_content (answering (Some "")) (seconds_from 1700000000) generator
      aqua_bottle "Product Description" "Casual" "English" started = (Ok r, w')
    /\ res_content r = ""
    /\ meta_error (res_metadata r) = None
    /\ _generate_fallback_content aqua_bottle "Product Description" "Casual" "English"
       = Ok fb
    /\ res_content r <> fb.
Proof.
  eexists _, _, _. split; [vm_compute; reflexivity|].
  split; [reflexivity|]. split; [reflexivity|].
  split; [vm_compute; reflexivity|]. discriminate.
Qed.

(** C3, as the specification states it, fails: a product record
    without its category makes the call return the error result; no
    error reaches the caller. *)
Lemma missing_category_is_not_raised :
  exists r w',
    generate_content unavailable (seconds_from 1700000000) generator
      (delete "Category" aqua_bottle)
      "Product Description" "Casual" "English" started = (Ok r, w')
    /\ meta_error (res_metadata r) = Some (KeyError "Category")
    /\ api_log w' = [].
Proof.
  eexists _, _. split; [vm_compute; reflexivity|]. split; reflexivity.
Qed.

Lemma generate_validation_witness :
  (exists r w',
      generate_content unavailable (seconds_from 1700000000) generator
        (delete "Category" aqua_bottle)
        "Product Description" "Casual" "English" started = (Ok r, w'))
  /\ (lacks_required (delete "Category" aqua_bottle) ->
      exists e w',
        generate_content unavailable (seconds_from 1700000000) generator
          (delete "Category" aqua_bottle)
          "Product Description" "Casual" "English" started
        = (Ok (error_result "Aqua Bottle" "Product Description" "Casual" "English"
                 (seconds_from 1700000000 (clock started)) e), w')
        /\ api_log w' = api_log started
        /\ heap w' = heap started).
Proof.
  apply (generate_validation unavailable (seconds_from 1700000000) generator
           (delete "Category" aqua_bottle) "Aqua Bottle"
           "Product Description" "Casual" "English" started).
  vm_compute; reflexivity.
Defined.

(** C10: the code does not do what the claim says.  When the attribute
    that is missing is the product name, the catch-all handler looks
    the name up again and raises: the call returns no result.  The
    counters are as they were. *)
Theorem handler_fails_without_product_name :
  exists w',
    generate_content unavailable (seconds_from 1700000000) generator
      (delete "Product Name" aqua_bottle)
      "Product Description" "Casual" "English" started
    = (Raise (KeyError "Product Name"), w')
    /\ stats_of w' generator = Some (0, 0, 0)%Z
    /\ api_log w' = [].
Proof.
  eexists. split; [vm_compute; reflexivity|]. split; vm_compute; reflexivity.
Qed.

Lemma aqua_request_valid : valid_request aqua_request.
Proof.
  split; [|repeat split; simpl; auto].
  exists "Aqua Bottle", "Drinkware", "Insulated;BPA-free", "Athletes".
  repeat split; vm_compute; reflexivity.
Qed.

Lemma stats_count_generations_witness :
  exists l w',
    get_generation_stats generator
      (after_calls flaky (seconds_from 1700000000) generator
         [aqua_request; aqua_request; aqua_request] started) = (Ok l, w')
    /\ deref l w' !! "total_generations" = Some 3%Z
    /\ deref l w' !! "total_time_saved" = Some 90%Z.
Proof.
  destruct (stats_count_generations flaky (seconds_from 1700000000) generator
              started 0 0 0) as (_ & _ & H).
  - vm_compute; reflexivity.
  - apply H; try reflexivity; apply aqua_request_valid.
Defined.

End GenerateExamples.

Section MetricsClaims.

Import PyNum Visualization Generator Heap.
Local Open Scope string_scope.

Variable text_generation : nat -> string -> api_outcome.
Variable time_time : nat -> Q.
Variable can_write : string -> bool.

(** C6: [calculate_kpis] derives the indicators from the counters and
    leaves the counters as they are: the count and the cost are the
    counters; the hours are the minutes divided by 60 and rounded to
    one decimal, which on the counters a generator can hold is the
    quotient itself; the average is the minutes divided by the number
    of generations when there is one (the code rounds it to one
    decimal too, which changes nothing there), and 0 when there is
    none: the divisor is never 0 and no division fails. *)
Theorem calculate_kpis_derivation (self : ContentGenerator) (w : world) :
  reachable text_generation time_time can_write self w ->
  exists n t c kpis w',
    stats_of w self = Some (n, t, c)
    /\ calculate_kpis self w = (Ok kpis, w')
    /\ stats_of w' self = Some (n, t, c)
    /\ generations_count kpis = n
    /\ cost_saved_usd kpis = c
    /\ time_saved_hours kpis = round1 (inject_Z t / 60)
    /\ (time_saved_hours kpis == inject_Z t / 60)%Q
    /\ (0 <= n)%Z
    /\ ((1 <= n)%Z -> (avg_time_per_generation kpis == inject_Z t / inject_Z n)%Q)
    /\ (n = 0%Z -> (avg_time_per_generation kpis == 0)%Q).
Proof.
  intros Hr. destruct (reachable_stats _ _ _ _ _ Hr) as (n & Hn & Hs).
  destruct (calculate_kpis_spec _ _ _ _ _ Hs) as (w' & Hk & Hh).
  exists n, (30 * n)%Z, (12 * n)%Z. eexists _, w'.
  split; [exact Hs|]. split; [exact Hk|].
  split; [by rewrite (stats_of_heap _ _ _ Hh)|].
  cbn [generations_count cost_saved_usd time_saved_hours avg_time_per_generation].
  do 3 (split; [reflexivity|]).
  split; [apply (round1_tenths _ (5 * n)); rewrite !inject_Z_mult; field|].
  split; [exact Hn|]. split.
  - intros Hpos. unfold max_Z. destruct (Z.ltb_spec n 1) as [Hlt|_]; [lia|].
    apply (round1_tenths _ 300). rewrite inject_Z_mult.
    field. apply inject_Z_nonzero. lia.
  - intros ->. reflexivity.
Qed.


Lemma after_changes_other (l l' : ref) (changes : list (gmap string Z)) (w : world) :
  l <> l' -> heap (after_changes l changes w) !! l' = heap w !! l'.
Proof.
  intros Hne. revert w. induction changes as [|d changes IH]; intros w; [reflexivity|].
  cbn [after_changes]. rewrite IH. cbn [dict_mutate snd heap set_heap].
  by apply list_lookup_insert_ne.
Qed.

(** C8: [get_generation_stats] returns a copy.  The dictionary it
    returns is another object than the generator's own and holds the
    same counters; whatever the caller then does to it, the
    generator's counters stay as they were, and so does what
    [calculate_kpis] and a later [get_generation_stats] report. *)
Theorem get_generation_stats_is_a_copy (self : ContentGenerator) (w : world)
    (n t c : Z) (changes : list (gmap string Z)) :
  stats_of w self = Some (n, t, c) ->
  exists l w1,
    get_generation_stats self w = (Ok l, w1)
    /\ l <> generation_stats self
    /\ heap w1 !! l = heap w !! generation_stats self
    /\ stats_of (after_changes l changes w1) self = Some (n, t, c)
    /\ fst (calculate_kpis self (after_changes l changes w1))
       = fst (calculate_kpis self w)
    /\ exists l' w3,
         get_generation_stats self (after_changes l changes w1) = (Ok l', w3)
         /\ heap w3 !! l' = heap w !! generation_stats self.
Proof.
  intros Hs. destruct (stats_of_inv _ _ _ _ _ Hs) as (d & Hd & _).
  assert (Hlt : generation_stats self < length (heap w))
    by (eapply lookup_lt_Some; exact Hd).
  assert (Hne : length (heap w) <> generation_stats self) by lia.
  rewrite (get_generation_stats_spec _ _ _ Hd).
  eexists _, _. split; [reflexivity|]. split; [exact Hne|].
  assert (Hsame : heap (after_changes (length (heap w)) changes
                          (set_heap (heap w ++ [d]) w)) !! generation_stats self
                  = Some d).
  { rewrite after_changes_other by exact Hne. cbn [heap set_heap].
    by rewrite lookup_app_l. }
  split; [cbn [heap set_heap]; by rewrite list_lookup_middle|].
  assert (Hs2 : stats_of (after_changes (length (heap w)) changes
                            (set_heap (heap w ++ [d]) w)) self = Some (n, t, c)).
  { rewrite <- Hs. apply stats_of_heap. by rewrite Hsame, Hd. }
  split; [exact Hs2|]. split.
  - destruct (calculate_kpis_spec _ _ _ _ _ Hs) as (wa & -> & _).
    by destruct (calculate_kpis_spec _ _ _ _ _ Hs2) as (wb & -> & _).
  - rewrite (get_generation_stats_spec _ _ _ Hsame).
    eexists _, _. split; [reflexivity|].
    cbn [heap set_heap]. by rewrite list_lookup_middle.
Qed.

(** What [export_content] does when nothing is in its way: it writes
    the text to the path that joins the output directory with the
    file name, and creates that directory if absent.  Without a file
    name (or with an empty one) the name is
    [brandboost_content_<timestamp>.txt], from the clock truncated to
    whole seconds.  When no regular file stands in the directory's
    place, the directory is there or can be created and the file can
    be opened, the call returns the path and the file holds exactly
    the text. *)
Lemma export_content_writes (self : ContentGenerator) (content : string)
    (filename : option string) (w : world) :
  files w !! "reports" = None ->
  "reports" ∈ dirs w \/ can_write "reports" = true ->
  can_write (os_path_join "reports" (export_name time_time filename w)) = true ->
  exists w',
    export_content time_time can_write self content filename w
    = (Ok (Some (os_path_join "reports" (export_name time_time filename w))), w')
    /\ files w' !! os_path_join "reports" (export_name time_time filename w)
       = Some content
    /\ "reports" ∈ dirs w'
    /\ heap w' = heap w
    /\ (String.prefix "/" (export_name time_time filename w) = false ->
        os_path_join "reports" (export_name time_time filename w)
        = "reports/" +:+ export_name time_time filename w)
    /\ (filename = None \/ filename = Some "" ->
        os_path_join "reports" (export_name time_time filename w)
        = "reports/brandboost_content_"
          +:+ pretty (int_of (time_time (clock w))) +:+ ".txt").
Proof.
  intros Hfree Hdir Hcan.
  assert (Hjoin : forall name, String.prefix "/" name = false ->
                    os_path_join "reports" name = "reports/" +:+ name).
  { intros name Hrel. unfold os_path_join. by rewrite Hrel. }
  destruct filename as [[|ch r]|]; cbn [export_name] in *.
  all: unfold export_content, os_makedirs, write_file; run; rewrite Hfree; run.
  all: destruct (bool_decide ("reports" ∈ dirs w)) eqn:Ed; run;
    [apply bool_decide_eq_true_1 in Ed
    |apply bool_decide_eq_false_1 in Ed; destruct Hdir as [Hin|Hmk]; [done|];
     rewrite Hmk; run].
  all: rewrite Hcan; eexists; split; [reflexivity|].
  all: split; [cbn [files set_fs]; apply lookup_insert_eq|].
  all: split; [cbn [dirs set_fs]; set_solver|].
  all: split; [reflexivity|].
  all: split; [apply Hjoin|].
  all: intros [E|E]; try discriminate E; apply Hjoin; reflexivity.
Qed.

End MetricsClaims.

Section MetricsExamples.

Import PyNum Visualization Generator Heap Examples.
Local Open Scope string_scope.

Lemma calculate_kpis_derivation_witness :
  exists n t c kpis w',
    stats_of after_one generator = Some (n, t, c)
    /\ calculate_kpis generator after_one = (Ok kpis, w')
    /\ stats_of w' generator = Some (n, t, c)
    /\ generations_count kpis = n
    /\ cost_saved_usd kpis = c
    /\ time_saved_hours kpis = round1 (inject_Z t / 60)
    /\ (time_saved_hours kpis == inject_Z t / 60)%Q
    /\ (0 <= n)%Z
    /\ ((1 <= n)%Z -> (avg_time_per_generation kpis == inject_Z t / inject_Z n)%Q)
    /\ (n = 0%Z -> (avg_time_per_generation kpis == 0)%Q).
Proof.
  apply (calculate_kpis_derivation (answering (Some "Great bottle!"))
           (seconds_from 1700000000) any_path_writable generator after_one).
  apply reach_generate. apply (reach_init _ _ _ _ empty_world). reflexivity.
Defined.


Lemma get_generation_stats_is_a_copy_witness :
  exists l w1,
    get_generation_stats generator started = (Ok l, w1)
    /\ l <> generation_stats generator
    /\ heap w1 !! l = heap started !! generation_stats generator
    /\ stats_of (after_changes l [{[ "total_generations" := 1000%Z ]}; ∅] w1) generator
       = Some (0, 0, 0)%Z
    /\ fst (calculate_kpis generator
              (after_changes l [{[ "total_generations" := 1000%Z ]}; ∅] w1))
       = fst (calculate_kpis generator started)
    /\ exists l' w3,
         get_generation_stats generator
           (after_changes l [{[ "total_generations" := 1000%Z ]}; ∅] w1) = (Ok l', w3)
         /\ heap w3 !! l' = heap started !! generation_stats generator.
Proof.
  apply (get_generation_stats_is_a_copy generator started 0 0 0).
  vm_compute. reflexivity.
Defined.

(** C9: the code does not do what the claim says.  The file is not
    always written under the output directory: the file name is
    joined to the directory as it is given, so an absolute name is
    written where it says, and a name that starts with [..] is
    written beside the directory, not in it.  The name the code makes
    up itself does stay inside. *)
Theorem filename_escapes_the_output_directory :
  (exists w',
      export_content (seconds_from 1700000000) any_path_writable generator
        "hello" (Some "/tmp/hello.txt") started = (Ok (Some "/tmp/hello.txt"), w')
      /\ files w' !! "/tmp/hello.txt" = Some "hello"
      /\ String.prefix "reports" "/tmp/hello.txt" = false
      /\ inside "reports" "/tmp/hello.txt" = false)
  /\ (exists w',
        export_content (seconds_from 1700000000) any_path_writable generator
          "hello" (Some "../escape.txt") started
        = (Ok (Some "reports/../escape.txt"), w')
        /\ files w' !! "reports/../escape.txt" = Some "hello"
        /\ components "reports/../escape.txt" = ["reports"; ".."; "escape.txt"]
        /\ inside "reports" "reports/../escape.txt" = false)
  /\ inside "reports" "reports/brandboost_content_1700000000.txt" = true.
Proof.
  split; [|split; [|reflexivity]].
  - eexists. split; [vm_compute; reflexivity|]. repeat split; vm_compute; reflexivity.
  - eexists. split; [vm_compute; reflexivity|]. repeat split; vm_compute; reflexivity.
Qed.

(** The file of the example: its path and what it holds. *)
Lemma export_hello :
  exists w',
    export_content (seconds_from 1700000000) any_path_writable generator
      "hello" None started
    = (Ok (Some "reports/brandboost_content_1700000000.txt"), w')
    /\ files w' !! "reports/brandboost_content_1700000000.txt" = Some "hello".
Proof.
  eexists. split; [vm_compute; reflexivity|]. vm_compute. reflexivity.
Qed.

(** The example of the specification where the hosted model answers. *)
Lemma answered_call :
  exists r w',
    generate_content (answering (Some "Great bottle!")) (seconds_from 1700000000)
      generator aqua_bottle "Product Description" "Casual" "English" started
    = (Ok r, w')
    /\ res_content r = "Great bottle!"
    /\ meta_error (res_metadata r) = None.
Proof.
  eexists _, _. split; [vm_compute; reflexivity|]. split; reflexivity.
Qed.

End MetricsExamples.

(** * Further properties of the code *)

(** ** The tables: their keys and what their entries mention *)

Section TableDomains.

Import PyStr PyFormat PromptTemplates Generator.
Local Open Scope string_scope.

Lemma keyed_lookup {V : Type} (keys : list string) (m : gmap string V) (k : string) :
  keyed keys m ->
  match m !! k with
  | Some _ => In k keys
  | None => ~ In k keys
  end.
Proof.
  unfold keyed. intros Hdom.
  assert (H : k ∈ dom m <-> In k keys).
  { rewrite Hdom, elem_of_list_to_set. apply list_elem_of_In. }
  rewrite elem_of_dom in H. destruct (m !! k) as [v|].
  - apply H. by exists v.
  - intros Hin. apply H in Hin. by destruct Hin.
Qed.

Lemma keyed_selected3 {V : Type} (m : gmap string (gmap string (gmap string V)))
    (content_type tone language : string) :
  keyed content_types m ->
  map_Forall (fun _ by_tone =>
    keyed tones by_tone
    /\ map_Forall (fun _ by_language => keyed languages by_language) by_tone) m ->
  selected (by_tone ← getitem m content_type;
            by_language ← getitem by_tone tone;
            getitem by_language language)
    content_type tone language true.
Proof.
  intros H1 Hall. unfold getitem.
  pose proof (keyed_lookup _ _ content_type H1) as Hc.
  destruct (m !! content_type) as [by_tone|] eqn:E1; run; cbv [selected]; [|tauto].
  destruct (Hall _ _ E1) as [H2 Hall2].
  pose proof (keyed_lookup _ _ tone H2) as Ht.
  destruct (by_tone !! tone) as [by_language|] eqn:E2; run; [|tauto].
  pose proof (keyed_lookup _ _ language (Hall2 _ _ E2)) as Hl.
  destruct (by_language !! language) as [v|]; run; [|right; right]; repeat split; auto.
Qed.

Lemma keyed_selected2 {V : Type} (m : gmap string (gmap string V))
    (content_type tone : string) :
  keyed content_types m ->
  map_Forall (fun _ by_tone => keyed tones by_tone) m ->
  selected (by_tone ← getitem m content_type; getitem by_tone tone)
    content_type tone "" false.
Proof.
  intros H1 Hall. unfold getitem.
  pose proof (keyed_lookup _ _ content_type H1) as Hc.
  destruct (m !! content_type) as [by_tone|] eqn:E1; run; cbv [selected]; [|tauto].
  pose proof (keyed_lookup _ _ tone (Hall _ _ E1)) as Ht.
  destruct (by_tone !! tone) as [v|]; run; [|right; left]; repeat split; auto.
  discriminate.
Qed.

Lemma templates_keys :
  keyed content_types templates
  /\ map_Forall (fun _ by_tone =>
       keyed tones by_tone
       /\ map_Forall (fun _ by_language => keyed languages by_language) by_tone)
       templates.
Proof.
  unfold keyed. split; [vm_compute; reflexivity|].
  apply (bool_decide_unpack _). vm_compute. exact I.
Qed.

Lemma recommendations_keys :
  keyed content_types recommendations
  /\ map_Forall (fun _ by_tone => keyed tones by_tone) recommendations.
Proof.
  unfold keyed. split; [vm_compute; reflexivity|].
  apply (bool_decide_unpack _). vm_compute. exact I.
Qed.

Lemma fallback_templates_keys (name category features audience : string) :
  keyed content_types (fallback_templates name category features audience)
  /\ map_Forall (fun _ by_tone =>
       keyed tones by_tone
       /\ map_Forall (fun _ by_language => keyed languages by_language) by_tone)
       (fallback_templates name category features audience).
Proof.
  unfold keyed, fallback_templates.
  generalize (str_replace features ";" ", "). intros features'.
  split; [vm_compute; reflexivity|].
  apply (bool_decide_unpack _). vm_compute. exact I.
Qed.

(** X1: [get_prompt_template] succeeds exactly on the selectors of the
    three enumerations; on any other it raises the [KeyError] of the
    first selector that is unknown, content type before tone before
    language. *)
Theorem get_prompt_template_keys (content_type tone language : string) :
  selected (get_prompt_template content_type tone language)
    content_type tone language true.
Proof.
  destruct templates_keys as [H1 H2]. exact (keyed_selected3 _ _ _ _ H1 H2).
Qed.

(** X2: [get_recommendations] succeeds exactly on the content types
    and tones of the enumerations; on any other it raises the
    [KeyError] of the content type if that is unknown, else of the
    tone. *)
Theorem get_recommendations_keys (content_type tone : string) :
  selected (get_recommendations content_type tone) content_type tone "" false.
Proof.
  destruct recommendations_keys as [H1 H2]. exact (keyed_selected2 _ _ _ H1 H2).
Qed.

(** X3: [_generate_fallback_content] reads the four attributes of the
    product before it looks at the selectors: it raises the
    [KeyError] of the first attribute that is missing, in the order
    name, category, features, target audience, whatever the
    selectors; with the four at hand it succeeds exactly on the
    selectors of the enumerations and raises the [KeyError] of the
    first unknown one otherwise. *)
Theorem fallback_content_keys (product_data : gmap string string)
    (content_type tone language : string) :
  match product_data !! "Product Name", product_data !! "Category",
        product_data !! "Features/Attributes", product_data !! "Target Audience" with
  | None, _, _, _ =>
      _generate_fallback_content product_data content_type tone language
      = Raise (KeyError "Product Name")
  | Some _, None, _, _ =>
      _generate_fallback_content product_data content_type tone language
      = Raise (KeyError "Category")
  | Some _, Some _, None, _ =>
      _generate_fallback_content product_data content_type tone language
      = Raise (KeyError "Features/Attributes")
  | Some _, Some _, Some _, None =>
      _generate_fallback_content product_data content_type tone language
      = Raise (KeyError "Target Audience")
  | Some _, Some _, Some _, Some _ =>
      selected (_generate_fallback_content product_data content_type tone language)
        content_type tone language true
  end.
Proof.
  destruct (product_data !! "Product Name") as [name|] eqn:En.
  2: { unfold _generate_fallback_content, getitem. by rewrite En. }
  destruct (product_data !! "Category") as [category|] eqn:Ec.
  2: { unfold _generate_fallback_content, getitem. by rewrite En, Ec. }
  destruct (product_data !! "Features/Attributes") as [features|] eqn:Ef.
  2: { unfold _generate_fallback_content, getitem. by rewrite En, Ec, Ef. }
  destruct (product_data !! "Target Audience") as [audience|] eqn:Ea.
  2: { unfold _generate_fallback_content, getitem. by rewrite En, Ec, Ef, Ea. }
  destruct (fallback_templates_keys name category features audience) as [H1 H2].
  unfold _generate_fallback_content, getitem. rewrite En, Ec, Ef, Ea.
  exact (keyed_selected3 _ content_type tone language H1 H2).
Qed.

Lemma str_in_skip (sub x r : string) : str_in sub r = true -> str_in sub (x +:+ r) = true.
Proof.
  intros H. induction x as [|c x IH]; [exact H|].
  change (String c x +:+ r) with (String c (x +:+ r)). by apply str_in_cons.
Qed.

Ltac mentions :=
  repeat first [apply str_in_cons | apply str_in_here | apply str_in_skip].

Ltac selectors Hc Ht Hl :=
  cbn [In content_types] in Hc; destruct Hc as [?|[?|[?|[]]]]; subst;
  cbn [In tones] in Ht; destruct Ht as [?|[?|[?|[?|[]]]]]; subst;
  cbn [In languages] in Hl; destruct Hl as [?|[?|[]]]; subst.

(** X4: for every combination of the enumerations, the prompt that is
    sent to the hosted model - the template formatted with the product
    - contains the name, the category, the features (as they are, with
    their semicolons) and the target audience of the product. *)
Theorem prompt_mentions_product (content_type tone language : string)
    (name category features audience : string) :
  In content_type content_types -> In tone tones -> In language languages ->
  exists tpl prompt,
    get_prompt_template content_type tone language = Ok tpl
    /\ format tpl (prompt_kwargs name category features audience) = Ok prompt
    /\ str_in name prompt = true
    /\ str_in category prompt = true
    /\ str_in features prompt = true
    /\ str_in audience prompt = true.
Proof.
  intros Hc Ht Hl. selectors Hc Ht Hl.
  all: eexists _, _; split; [vm_compute; reflexivity|].
  all: split; [vm_compute; reflexivity|].
  all: repeat split; mentions.
Qed.

(** X5: for every combination of the enumerations and every complete
    product, the fallback content contains the name and the target
    audience of the product and its features with every semicolon
    replaced by a comma and a space; it contains the category too,
    except for the playful social post, whose two texts do not use
    it. *)
Theorem fallback_mentions_product (product_data : gmap string string)
    (name category features audience content_type tone language : string) :
  has_required product_data name category features audience ->
  In content_type content_types -> In tone tones -> In language languages ->
  exists s,
    _generate_fallback_content product_data content_type tone language = Ok s
    /\ str_in name s = true
    /\ str_in (str_replace features ";" ", ") s = true
    /\ str_in audience s = true
    /\ ((content_type = "Social Post" /\ tone = "Playful")
        \/ str_in category s = true).
Proof.
  intros (Hn & Hy & Hf & Ha) Hc Ht Hl.
  unfold _generate_fallback_content, getitem.
  rewrite Hn, Hy, Hf, Ha. run. unfold fallback_templates.
  generalize (str_replace features ";" ", "). intros features'.
  selectors Hc Ht Hl.
  all: eexists; split; [vm_compute; reflexivity|].
  all: do 3 (split; [mentions|]).
  all: first [left; split; reflexivity | right; mentions].
Qed.

Lemma playful_social_post_entries (name category category' features audience : string) :
  exists by_language,
    fallback_templates name category features audience !! "Social Post"
      ≫= (fun by_tone => by_tone !! "Playful") = Some by_language
    /\ fallback_templates name category' features audience !! "Social Post"
         ≫= (fun by_tone => by_tone !! "Playful") = Some by_language.
Proof.
  unfold fallback_templates.
  generalize (str_replace features ";" ", "). intros features'.
  eexists. split; vm_compute; reflexivity.
Qed.

(** X6: the fallback text of the playful social post does not depend
    on the category of the product: with another category in the
    record the call gives the same content, or fails the same way. *)
Theorem playful_social_post_ignores_category (product_data : gmap string string)
    (category category' language : string) :
  product_data !! "Category" = Some category ->
  _generate_fallback_content (<["Category" := category']> product_data)
    "Social Post" "Playful" language
  = _generate_fallback_content product_data "Social Post" "Playful" language.
Proof.
  intros Ec. unfold _generate_fallback_content, getitem.
  rewrite lookup_insert_eq, !lookup_insert_ne, Ec by done.
  destruct (product_data !! "Product Name") as [name|]; [|reflexivity].
  destruct (product_data !! "Features/Attributes") as [features|]; [|reflexivity].
  destruct (product_data !! "Target Audience") as [audience|]; [|reflexivity].
  run.
  destruct (playful_social_post_entries name category category' features audience)
    as (by_language & E & E').
  destruct (fallback_templates name category features audience !! "Social Post")
    as [by_tone|]; [|discriminate E].
  destruct (fallback_templates name category' features audience !! "Social Post")
    as [by_tone'|]; [|discriminate E'].
  cbn [mbind option_bind] in E, E'. by rewrite E, E'.
Qed.

Lemma playful_social_post_ignores_category_witness :
  _generate_fallback_content (<["Category" := "Flasks"]> Examples.aqua_bottle)
    "Social Post" "Playful" "French"
  = _generate_fallback_content Examples.aqua_bottle "Social Post" "Playful" "French".
Proof.
  apply (playful_social_post_ignores_category Examples.aqua_bottle "Drinkware").
  vm_compute. reflexivity.
Defined.

End TableDomains.

(** ** One generation, step by step *)

Section GenerationSteps.

Import PyStr PyFormat PromptTemplates Generator Heap.
Local Open Scope string_scope.

Variable text_generation : nat -> string -> api_outcome.
Variable time_time : nat -> Q.

(** The three updates of the counters, run one after the other. *)
Ltac bump Hd Hn Ht Hc :=
  erewrite dict_iadd_spec; [|cbn [heap]; exact Hd|exact Hn];
  cbv beta iota; cbn [heap set_heap];
  erewrite dict_iadd_spec;
    [|cbn [heap set_heap]; apply list_lookup_insert_eq;
      eapply lookup_lt_Some; exact Hd
     |rewrite lookup_insert_ne by done; exact Ht];
  cbv beta iota; cbn [heap set_heap];
  erewrite dict_iadd_spec;
    [|cbn [heap set_heap]; apply list_lookup_insert_eq;
      rewrite length_insert; eapply lookup_lt_Some; exact Hd
     |rewrite !lookup_insert_ne by done; exact Hc];
  cbv beta iota; cbn [heap set_heap].

(** What a call with a complete product and selectors of the
    enumerations returns and leaves, for each answer of the hosted
    model. *)
Lemma generate_valid_steps (self : ContentGenerator) (product_data : gmap string string)
    (name category features audience content_type tone language : string)
    (w : world) (d : gmap string Z) (n t c : Z) :
  has_required product_data name category features audience ->
  In content_type content_types -> In tone tones -> In language languages ->
  heap w !! generation_stats self = Some d ->
  d !! "total_generations" = Some n ->
  d !! "total_time_saved" = Some t ->
  d !! "total_cost_saved" = Some c ->
  exists tpl prompt fb rec,
    get_prompt_template content_type tone language = Ok tpl
    /\ format tpl (prompt_kwargs name category features audience) = Ok prompt
    /\ _generate_fallback_content product_data content_type tone language = Ok fb
    /\ get_recommendations content_type tone = Ok rec
    /\ generate_content text_generation time_time self product_data
         content_type tone language w
       = let t0 := time_time (clock w) in
         let t1 := time_time (S (clock w)) in
         let t2 := time_time (S (S (clock w))) in
         let called := push_api prompt (tick w) in
         let counted w1 := updated (generation_stats self) d n t c (tick w1) in
         match text_generation (length (api_log w)) prompt with
         | Returns (Some text) =>
             (Ok (normal_result name content_type tone language (strip text) rec
                    (t1 - t0) t2),
              tick (counted called))
         | Returns None =>
             let e := AttributeError "'NoneType' object has no attribute 'strip'" in
             (Ok (error_result name content_type tone language t2 e),
              tick (push_ui (StErrorGenerating e) (counted called)))
         | Raises e =>
             (Ok (normal_result name content_type tone language fb rec (t1 - t0) t2),
              tick (counted (if is_StopIteration e then called
                             else push_ui unavailable_warning called)))
         end.
Proof.
  intros Hreq Hct Htone Hlang Hd Hn Ht Hc.
  destruct (template_entry _ _ _ Hct Htone Hlang) as (tpl & Htpl & _ & _ & Hfmt).
  destruct (Hfmt name category features audience) as (prompt & Hprompt & _).
  destruct (fallback_entry _ _ _ _ _ _ _ _ Hreq Hct Htone Hlang)
    as (fb & Hfb & _ & _ & Hstrip).
  destruct (recommendation_entry _ _ Hct Htone) as (rec & Hrec & _).
  destruct Hreq as (Hname & Hcat & Hfeat & Haud).
  exists tpl, prompt, fb, rec.
  fold (prompt_kwargs name category features audience) in Hprompt.
  do 4 (split; [assumption|]).
  unfold generate_content, getitem.
  rewrite Htpl, Hname, Hcat, Hfeat, Haud, Hfb, Hrec.
  run. fold (prompt_kwargs name category features audience). rewrite Hprompt.
  run.
  destruct (text_generation (length (api_log w)) prompt) as [[text|]|e]; run.
  3: destruct e; run.
  all: bump Hd Hn Ht Hc; run.
  all: rewrite ?Hname, ?Hstrip; run.
  all: reflexivity.
Qed.

(** X7: a generation with a complete product and selectors of the
    enumerations calls the hosted model exactly once, with the
    template of the combination formatted with the product; when the
    call fails the fallback is used and the model is not called
    again. *)
Theorem one_model_call_per_generation (self : ContentGenerator)
    (product_data : gmap string string)
    (name category features audience content_type tone language : string)
    (w : world) (n t c : Z) :
  has_required product_data name category features audience ->
  In content_type content_types -> In tone tones -> In language languages ->
  stats_of w self = Some (n, t, c) ->
  exists tpl prompt,
    get_prompt_template content_type tone language = Ok tpl
    /\ format tpl (prompt_kwargs name category features audience) = Ok prompt
    /\ api_log (snd (generate_content text_generation time_time self product_data
                       content_type tone language w))
       = prompt :: api_log w.
Proof.
  intros Hreq Hct Htone Hlang Hs.
  destruct (stats_of_inv _ _ _ _ _ Hs) as (d & Hd & Hn & Ht & Hc).
  destruct (generate_valid_steps self _ _ _ _ _ _ _ _ w d n t c
              Hreq Hct Htone Hlang Hd Hn Ht Hc)
    as (tpl & prompt & fb & rec & Htpl & Hprompt & _ & _ & Hrun).
  exists tpl, prompt. do 2 (split; [assumption|]). rewrite Hrun. cbv zeta.
  destruct (text_generation (length (api_log w)) prompt) as [[text|]|e];
    [reflexivity|reflexivity|].
  by destruct (is_StopIteration e).
Qed.

(** X8: when the hosted model answers with a text, the content of the
    result is that text stripped of the white space at its ends; the
    result carries the recommendation of the content type and tone,
    the name of the product and the three selectors, and no error
    indicator; nothing is shown to the user. *)
Theorem answered_generation (self : ContentGenerator)
    (product_data : gmap string string)
    (name category features audience content_type tone language text : string)
    (w : world) (n t c : Z) :
  has_required product_data name category features audience ->
  In content_type content_types -> In tone tones -> In language languages ->
  stats_of w self = Some (n, t, c) ->
  (forall prompt, text_generation (length (api_log w)) prompt = Returns (Some text)) ->
  exists rec w',
    get_recommendations content_type tone = Ok rec
    /\ generate_content text_generation time_time self product_data
         content_type tone language w
       = (Ok (normal_result name content_type tone language (strip text) rec
                (time_time (S (clock w)) - time_time (clock w))
                (time_time (S (S (clock w))))), w')
    /\ ui w' = ui w.
Proof.
  intros Hreq Hct Htone Hlang Hs Hanswer.
  destruct (stats_of_inv _ _ _ _ _ Hs) as (d & Hd & Hn & Ht & Hc).
  destruct (generate_valid_steps self _ _ _ _ _ _ _ _ w d n t c
              Hreq Hct Htone Hlang Hd Hn Ht Hc)
    as (tpl & prompt & fb & rec & _ & _ & _ & Hrec & Hrun).
  rewrite Hanswer in Hrun. exists rec. eexists. split; [assumption|].
  split; [exact Hrun|reflexivity].
Qed.

(** X9: the generation time of a result is the reading of the clock
    after the call of the hosted model (or after the fallback) minus
    the reading before it, so it is never negative when the clock does
    not go back between the two readings. *)
Theorem generation_time_not_negative (self : ContentGenerator)
    (product_data : gmap string string)
    (name category features audience content_type tone language : string)
    (w : world) (n t c : Z) :
  has_required product_data name category features audience ->
  In content_type content_types -> In tone tones -> In language languages ->
  stats_of w self = Some (n, t, c) ->
  (time_time (clock w) <= time_time (S (clock w)))%Q ->
  exists r w',
    generate_content text_generation time_time self product_data
      content_type tone language w = (Ok r, w')
    /\ (0 <= res_generation_time r)%Q
    /\ (meta_error (res_metadata r) = None ->
        res_generation_time r
        = (time_time (S (clock w)) - time_time (clock w))%Q).
Proof.
  intros Hreq Hct Htone Hlang Hs Hclock.
  destruct (stats_of_inv _ _ _ _ _ Hs) as (d & Hd & Hn & Ht & Hc).
  destruct (generate_valid_steps self _ _ _ _ _ _ _ _ w d n t c
              Hreq Hct Htone Hlang Hd Hn Ht Hc)
    as (tpl & prompt & fb & rec & _ & _ & _ & _ & Hrun).
  rewrite Hrun. cbv zeta.
  destruct (text_generation (length (api_log w)) prompt) as [[text|]|e].
  all: eexists _, _; split; [reflexivity|].
  all: cbn [res_generation_time normal_result error_result res_metadata meta_error].
  all: split; [|done].
  all: lra.
Qed.

(** X10: the user is warned of the fallback exactly when the call of
    the hosted model raised something else than [StopIteration]: then
    one warning is shown; a fallback after [StopIteration] is
    silent. *)
Theorem fallback_warning (self : ContentGenerator)
    (product_data : gmap string string)
    (name category features audience content_type tone language : string)
    (w : world) (n t c : Z) (e : exn) :
  has_required product_data name category features audience ->
  In content_type content_types -> In tone tones -> In language languages ->
  stats_of w self = Some (n, t, c) ->
  (forall prompt, text_generation (length (api_log w)) prompt = Raises e) ->
  ui (snd (generate_content text_generation time_time self product_data
             content_type tone language w))
  = match e with
    | StopIteration => ui w
    | _ => unavailable_warning :: ui w
    end.
Proof.
  intros Hreq Hct Htone Hlang Hs Hraise.
  destruct (stats_of_inv _ _ _ _ _ Hs) as (d & Hd & Hn & Ht & Hc).
  destruct (generate_valid_steps self _ _ _ _ _ _ _ _ w d n t c
              Hreq Hct Htone Hlang Hd Hn Ht Hc)
    as (tpl & prompt & fb & rec & _ & _ & _ & _ & Hrun).
  rewrite Hrun, Hraise. by destruct e.
Qed.

(** X11: for a product that has a name, with a selector outside its
    enumeration, the call returns the error result, whose error is the
    [KeyError] of the first unknown selector, content type before
    tone before language; the hosted model is not called, no counter
    changes, the clock is read once and one error is shown. *)
Theorem unknown_selector_gives_error_result (self : ContentGenerator)
    (product_data : gmap string string)
    (name content_type tone language : string) (w : world) :
  product_data !! "Product Name" = Some name ->
  ~ (In content_type content_types /\ In tone tones /\ In language languages) ->
  exists e,
    ((~ In content_type content_types /\ e = KeyError content_type)
     \/ (In content_type content_types /\ ~ In tone tones /\ e = KeyError tone)
     \/ (In content_type content_types /\ In tone tones
         /\ ~ In language languages /\ e = KeyError language))
    /\ generate_content text_generation time_time self product_data
         content_type tone language w
       = (Ok (error_result name content_type tone language (time_time (clock w)) e),
          tick (push_ui (StErrorGenerating e) w)).
Proof.
  intros Hname Hout.
  destruct templates_keys as [H1 H2].
  pose proof (keyed_selected3 _ content_type tone language H1 H2) as Hsel.
  fold (get_prompt_template content_type tone language) in Hsel.
  unfold generate_content, getitem.
  destruct (get_prompt_template content_type tone language) as [tpl|e].
  - cbv [selected] in Hsel. tauto.
  - exists e. split.
    + cbv [selected] in Hsel. destruct Hsel as [H|[H|(_ & H)]]; tauto.
    + run. rewrite Hname. reflexivity.
Qed.

End GenerationSteps.

(** ** What a generation leaves alone *)

Section Frame.

Import PyStr PyFormat PromptTemplates Generator Heap.
Local Open Scope string_scope.

Variable text_generation : nat -> string -> api_outcome.
Variable time_time : nat -> Q.

Lemma keeps_refl (l : ref) (w : world) : keeps l w w.
Proof. by intros l' _. Qed.

Lemma keeps_trans (l : ref) (w1 w2 w3 : world) :
  keeps l w1 w2 -> keeps l w2 w3 -> keeps l w1 w3.
Proof. intros H K l' Hne. by rewrite K, H. Qed.

Lemma keeping_ret (l : ref) {A : Type} (a : A) : keeping l (mret a).
Proof. intros w. apply keeps_refl. Qed.

Lemma keeping_lift (l : ref) {A : Type} (r : result A) : keeping l (lift r).
Proof. intros w. apply keeps_refl. Qed.

Lemma keeping_bind (l : ref) {A B : Type} (m : M A) (k : A -> M B) :
  keeping l m -> (forall a, keeping l (k a)) -> keeping l (m ≫= k).
Proof.
  intros Hm Hk w. specialize (Hm w). cbv [mbind M_bind].
  destruct (m w) as [[a|e] w1]; cbn [snd] in *; [|exact Hm].
  eapply keeps_trans; [exact Hm|apply Hk].
Qed.

Lemma keeping_try (l : ref) {A : Type} (body : M A) (handler : exn -> M A) :
  keeping l body -> (forall e, keeping l (handler e)) -> keeping l (try_except body handler).
Proof.
  intros Hm Hk w. specialize (Hm w). cbv [try_except].
  destruct (body w) as [[a|e] w1]; cbn [snd] in *; [exact Hm|].
  eapply keeps_trans; [exact Hm|apply Hk].
Qed.

Lemma keeping_now (l : ref) : keeping l (now time_time).
Proof. by intros w l' _. Qed.

Lemma keeping_st (l : ref) (ev : ui_event) : keeping l (st ev).
Proof. by intros w l' _. Qed.

Lemma keeping_client (l : ref) (prompt : string) :
  keeping l (client_text_generation text_generation prompt).
Proof.
  intros w. unfold client_text_generation.
  by destruct (text_generation (length (api_log w)) prompt); intros l' _.
Qed.

Lemma keeping_iadd (l : ref) (key : string) (v : Z) : keeping l (dict_iadd l key v).
Proof.
  intros w. unfold dict_iadd, dict_getitem, dict_setitem, getitem. run.
  destruct (deref l w !! key); cbn [snd]; [|apply keeps_refl].
  intros l' Hne. cbn [heap set_heap]. by apply list_lookup_insert_ne.
Qed.

Ltac frame :=
  repeat first
    [ apply keeping_iadd
    | apply keeping_bind; [|intros ?]
    | apply keeping_try; [|intros ?]
    | apply keeping_lift
    | apply keeping_ret
    | apply keeping_now
    | apply keeping_st
    | apply keeping_client
    | match goal with |- keeping _ (if ?b then _ else _) => destruct b end
    | progress cbv zeta ].

Lemma generate_keeping (self : ContentGenerator) (product_data : gmap string string)
    (content_type tone language : string) :
  keeping (generation_stats self)
    (generate_content text_generation time_time self product_data
       content_type tone language).
Proof. unfold generate_content. frame. Qed.

(** X12: the counters a caller got from [get_generation_stats] are a
    snapshot.  A generation that follows changes the generator's own
    dictionary, not the one the caller holds: whatever the arguments
    and however the call ends, the caller's dictionary still reads
    what the counters were when it was made; and after a call with a
    complete product and selectors of the enumerations the generator
    counts one generation more than the snapshot shows. *)
Theorem snapshot_survives_generation (self : ContentGenerator) (w : world)
    (n t c : Z) :
  stats_of w self = Some (n, t, c) ->
  exists l w1,
    get_generation_stats self w = (Ok l, w1)
    /\ heap w1 !! l = heap w !! generation_stats self
    /\ (forall product_data content_type tone language,
          heap (snd (generate_content text_generation time_time self product_data
                       content_type tone language w1)) !! l
          = heap w !! generation_stats self)
    /\ (forall product_data name category features audience content_type tone language,
          has_required product_data name category features audience ->
          In content_type content_types -> In tone tones -> In language languages ->
          stats_of (snd (generate_content text_generation time_time self product_data
                           content_type tone language w1)) self
          = Some (n + 1, t + 30, c + 12)%Z).
Proof.
  intros Hs. destruct (stats_of_inv _ _ _ _ _ Hs) as (d & Hd & _).
  assert (Hlt : generation_stats self < length (heap w))
    by (eapply lookup_lt_Some; exact Hd).
  rewrite (get_generation_stats_spec _ _ _ Hd).
  eexists _, _. split; [reflexivity|].
  assert (Hcopy : heap (set_heap (heap w ++ [d]) w) !! length (heap w)
                  = heap w !! generation_stats self).
  { cbn [heap set_heap]. by rewrite list_lookup_middle. }
  split; [exact Hcopy|]. split.
  - intros product_data content_type tone language. rewrite <- Hcopy.
    apply generate_keeping. lia.
  - intros product_data name category features audience content_type tone language
      Hreq Hct Htone Hlang.
    assert (Hs1 : stats_of (set_heap (heap w ++ [d]) w) self = Some (n, t, c)).
    { rewrite <- Hs. apply stats_of_heap. cbn [heap set_heap]. by apply lookup_app_l. }
    destruct (generate_valid text_generation time_time self _ _ _ _ _ _ _ _ _ n t c
                Hreq Hct Htone Hlang Hs1)
      as (tpl & prompt & fb & rec & r & w2 & _ & _ & _ & _ & Hrun & Hcount & _).
    by rewrite Hrun.
Qed.

(** X13: two generators do not share their counters: when a second
    generator is built and generates, the counters of the first stay
    as they were. *)
Theorem generators_have_their_own_counters (first second : ContentGenerator)
    (w w1 : world) (n t c : Z) (product_data : gmap string string)
    (content_type tone language : string) :
  stats_of w first = Some (n, t, c) ->
  __init__ w = (Ok second, w1) ->
  stats_of w1 first = Some (n, t, c)
  /\ stats_of w1 second = Some (0, 0, 0)%Z
  /\ stats_of (snd (generate_content text_generation time_time second product_data
                      content_type tone language w1)) first
     = Some (n, t, c).
Proof.
  intros Hs Hinit.
  destruct (stats_of_inv _ _ _ _ _ Hs) as (d & Hd & _).
  assert (Hlt : generation_stats first < length (heap w))
    by (eapply lookup_lt_Some; exact Hd).
  pose proof (init_stats _ _ _ Hinit) as Hzero.
  unfold __init__, alloc in Hinit. run. injection Hinit as <- <-.
  assert (H1 : stats_of (set_heap (heap w ++ [{[ "total_generations" := 0%Z;
                                                 "total_time_saved" := 0%Z;
                                                 "total_cost_saved" := 0%Z ]}]) w) first
               = Some (n, t, c)).
  { rewrite <- Hs. apply stats_of_heap. cbn [heap set_heap]. by apply lookup_app_l. }
  split; [exact H1|]. split; [exact Hzero|].
  rewrite <- H1. apply stats_of_heap.
  apply generate_keeping. cbn [generation_stats]. lia.
Qed.

End Frame.

(** ** The catalog and the deployment script *)

Section CatalogFacts.

Import Products SetupSpace.
Local Open Scope string_scope.

Lemma value_eq_spec (a b : value) : value_eq a b = true <-> a = b.
Proof.
  destruct a as [m|s], b as [n|t]; cbn [value_eq]; split; try discriminate.
  - intros H. apply Z.eqb_eq in H. by subst.
  - intros [= ->]. apply Z.eqb_refl.
  - intros H. apply String.eqb_eq in H. by subst.
  - intros [= ->]. apply String.eqb_refl.
Qed.

(** X14: [get_product_by_id] returns the first row of the catalog
    whose identifier equals the one asked for, having passed only
    rows with another identifier; it returns [None] exactly when
    every row has another identifier; and it raises [KeyError]
    exactly when it meets a row without identifier before any
    match. *)
Theorem get_product_by_id_first_match (products : list (gmap string value))
    (product_id : value) :
  match get_product_by_id products product_id with
  | Ok (Some product) =>
      exists before after,
        products = (before ++ product :: after)%list
        /\ Forall (other_id product_id) before
        /\ product !! "ProductID" = Some product_id
  | Ok None => Forall (other_id product_id) products
  | Raise e =>
      e = KeyError "ProductID"
      /\ exists before product after,
           products = (before ++ product :: after)%list
           /\ Forall (other_id product_id) before
           /\ product !! "ProductID" = None
  end.
Proof.
  induction products as [|product rest IH]; [constructor|].
  cbn [get_product_by_id]. unfold getitem.
  destruct (product !! "ProductID") as [id|] eqn:Eid; run.
  2: { split; [reflexivity|]. by exists [], product, rest. }
  destruct (value_eq id product_id) eqn:Eeq.
  { exists [], rest. repeat split; [constructor|].
    apply value_eq_spec in Eeq. by subst id. }
  assert (Hother : other_id product_id product).
  { exists id. split; [done|]. intros ->.
    rewrite (proj2 (value_eq_spec _ _) eq_refl) in Eeq. discriminate. }
  destruct (get_product_by_id rest product_id) as [[found|]|e].
  - destruct IH as (before & after & -> & Hbefore & Hid).
    exists (product :: before), after. repeat split; [by constructor|assumption].
  - by constructor.
  - destruct IH as (-> & before & missing & after & -> & Hbefore & Hid).
    split; [reflexivity|].
    exists (product :: before), missing, after. repeat split; [by constructor|assumption].
Qed.

(** In a catalog whose rows all have an identifier, no two the same,
    every row is found by its identifier. *)
Lemma get_product_by_id_unique (products : list (gmap string value))
    (product : gmap string value) (product_id : value) :
  Forall (fun row => is_Some (row !! "ProductID")) products ->
  NoDup (product_ids products) ->
  In product products ->
  product !! "ProductID" = Some product_id ->
  get_product_by_id products product_id = Ok (Some product).
Proof.
  intros Hall Hnodup Hin Hid.
  induction products as [|row rest IH]; [by destruct Hin|].
  apply Forall_cons in Hall as [(id & Hrow) Hall].
  cbn [product_ids map] in Hnodup. apply NoDup_cons in Hnodup as [Hfresh Hnodup].
  cbn [get_product_by_id]. unfold getitem. rewrite Hrow. run.
  destruct Hin as [->|Hin].
  - rewrite Hid in Hrow. injection Hrow as <-.
    by rewrite (proj2 (value_eq_spec _ _) eq_refl).
  - destruct (value_eq id product_id) eqn:Eeq; [|by apply IH].
    apply value_eq_spec in Eeq. subst id.
    exfalso. apply Hfresh. rewrite Hrow, <- Hid.
    apply list_elem_of_In. apply in_map_iff. by exists product.
Qed.

(** X15: in a catalog whose rows all have an identifier, no two the
    same, every row is found by its identifier. *)
Theorem get_product_by_id_finds_each (products : list (gmap string value))
    (product : gmap string value) (product_id : value) :
  Forall (fun row => is_Some (row !! "ProductID")) products ->
  NoDup (product_ids products) ->
  In product products ->
  product !! "ProductID" = Some product_id ->
  get_product_by_id products product_id = Ok (Some product).
Proof. apply get_product_by_id_unique. Qed.

Lemma missing_among_spec (path_exists : string -> bool) (files : list string)
    (file : string) :
  In file (missing_among path_exists files)
  <-> In file files /\ path_exists file = false.
Proof.
  induction files as [|f rest IH]; [cbn; tauto|].
  cbn [missing_among In]. destruct (path_exists f) eqn:E; cbn [negb In]; rewrite IH.
  - split; [tauto|]. intros [[->|H] Hf]; [congruence|tauto].
  - split; [intros [->|H]; tauto|]. intros [[->|H] Hf]; tauto.
Qed.

(** X16: [prepare_files] returns [True] exactly when every required
    file exists; otherwise it returns [False] and prints, after its
    two heading lines, one line for each required file that is
    missing and for no other. *)
Theorem prepare_files_checks_every_file (path_exists : string -> bool) :
  (snd (prepare_files path_exists) = true
   <-> forall file, In file required_files -> path_exists file = true)
  /\ (snd (prepare_files path_exists) = false ->
      forall file,
        In ("   - " +:+ file) (skipn 2 (fst (prepare_files path_exists)))
        <-> In file required_files /\ path_exists file = false).
Proof.
  unfold prepare_files.
  pose proof (missing_among_spec path_exists required_files) as Hspec.
  destruct (missing_among path_exists required_files) as [|m ms]; cbn [fst snd].
  - split; [|discriminate]. split; [|reflexivity]. intros _ file Hin.
    destruct (path_exists file) eqn:E; [reflexivity|].
    exfalso. apply (proj2 (Hspec file)). by split.
  - split.
    + split; [discriminate|]. intros Hall.
      destruct (proj1 (Hspec m) (or_introl eq_refl)) as [Hin Hm].
      rewrite (Hall m Hin) in Hm. discriminate.
    + intros _ file. cbn [app skipn]. rewrite drop_0, <- Hspec, in_map_iff. split.
      * intros (f & Hf & Hin). apply String.app_inj in Hf. by subst f.
      * intros Hin. by exists file.
Qed.

End CatalogFacts.

(** ** Exports *)

Section ExportFacts.

Import PyStr PyNum Generator Heap.
Local Open Scope string_scope.

Variable time_time : nat -> Q.
Variable can_write : string -> bool.

Lemma default_path_not_reports (w : world) : default_path time_time w <> "reports".
Proof. unfold default_path. cbv [append]. discriminate. Qed.

(** An export without file name, in a world where it goes through. *)
Lemma export_content_default (self : ContentGenerator) (content : string) (w : world) :
  files w !! "reports" = None ->
  "reports" ∈ dirs w \/ can_write "reports" = true ->
  can_write (default_path time_time w) = true ->
  exists w',
    export_content time_time can_write self content None w
    = (Ok (Some (default_path time_time w)), w')
    /\ files w' = <[default_path time_time w := content]> (files w)
    /\ "reports" ∈ dirs w'
    /\ clock w' = S (clock w).
Proof.
  intros Hfree Hdir Hcan. unfold export_content, os_makedirs, write_file. run.
  rewrite Hfree. run.
  change (os_path_join "reports"
            ("brandboost_content_" +:+ pretty (int_of (time_time (clock w))) +:+ ".txt"))
    with (default_path time_time w).
  destruct (bool_decide ("reports" ∈ dirs w)) eqn:Ed; run.
  - apply bool_decide_eq_true_1 in Ed. rewrite Hcan. by eexists.
  - apply bool_decide_eq_false_1 in Ed. destruct Hdir as [Hin|Hmk]; [done|].
    rewrite Hmk. run. rewrite Hcan. eexists. split; [reflexivity|].
    cbn [files dirs clock set_fs tick]. repeat split. set_solver.
Qed.

(** The output directory is absent and cannot be created. *)
Lemma export_content_no_directory (self : ContentGenerator) (content : string)
    (filename : option string) (w : world) :
  files w !! "reports" = None ->
  ("reports" ∉ dirs w) ->
  can_write "reports" = false ->
  exists w',
    export_content time_time can_write self content filename w
    = (Raise (OSError "reports"), w')
    /\ files w' = files w
    /\ dirs w' = dirs w
    /\ ui w' = ui w.
Proof.
  intros Hfree Hout Hmk. unfold export_content, os_makedirs.
  destruct filename as [[|ch r]|]; run; rewrite Hfree; run.
  all: rewrite bool_decide_eq_false_2 by exact Hout; rewrite Hmk.
  all: by eexists.
Qed.

(** X17: two exports without file name whose clock readings fall in
    the same second are written to the same path: both calls return
    it, and the file then holds the second text only.  The one other
    course is that the output directory is absent and cannot be
    created: then the first call raises. *)
Theorem exports_in_the_same_second_collide (self : ContentGenerator)
    (first second : string) (w : world) :
  files w !! "reports" = None ->
  can_write (default_path time_time w) = true ->
  int_of (time_time (S (clock w))) = int_of (time_time (clock w)) ->
  (exists w1 w2,
      export_content time_time can_write self first None w
      = (Ok (Some (default_path time_time w)), w1)
      /\ export_content time_time can_write self second None w1
         = (Ok (Some (default_path time_time w)), w2)
      /\ files w2 !! default_path time_time w = Some second)
  \/ (("reports" ∉ dirs w)
      /\ can_write "reports" = false
      /\ exists w',
           export_content time_time can_write self first None w
           = (Raise (OSError "reports"), w')).
Proof.
  intros Hfree Hcan Hsame.
  assert (Hdir : ("reports" ∈ dirs w \/ can_write "reports" = true)
                 \/ (("reports" ∉ dirs w) /\ can_write "reports" = false)).
  { destruct (decide ("reports" ∈ dirs w)); [by left; left|].
    destruct (can_write "reports"); [by left; right|by right]. }
  destruct Hdir as [Hdir|[Hout Hmk]].
  - left.
    destruct (export_content_default self first w Hfree Hdir Hcan)
      as (w1 & Hrun1 & Hfiles1 & Hdirs1 & Hclock1).
    assert (Hpath : default_path time_time w1 = default_path time_time w).
    { unfold default_path. by rewrite Hclock1, Hsame. }
    assert (Hfree1 : files w1 !! "reports" = None).
    { rewrite Hfiles1, lookup_insert_ne; [exact Hfree|].
      apply default_path_not_reports. }
    assert (Hcan1 : can_write (default_path time_time w1) = true)
      by (by rewrite Hpath).
    destruct (export_content_default self second w1 Hfree1 (or_introl Hdirs1) Hcan1)
      as (w2 & Hrun2 & Hfiles2 & _).
    exists w1, w2. split; [exact Hrun1|]. rewrite <- Hpath at 1 2.
    split; [exact Hrun2|]. rewrite Hfiles2, Hpath. apply lookup_insert_eq.
  - right. do 2 (split; [assumption|]).
    destruct (export_content_no_directory self first None w Hfree Hout Hmk)
      as (w' & Hrun & _).
    by exists w'.
Qed.

(** X18: the two ways an export fails on the file system, when no
    regular file has the name of the output directory.  When the
    directory is there or can be created but the file cannot be
    opened, [export_content] does not raise: it returns [None] and
    shows one error; no file has changed and no counter, and the
    directory is there.  When the directory is absent and cannot be
    created, [os.makedirs], which is outside the [try] block, raises
    and the [OSError] reaches the caller: nothing is written, created
    or shown. *)
Theorem export_fails_by_none_or_by_raising (self : ContentGenerator)
    (content : string) (filename : option string) (w : world) :
  files w !! "reports" = None ->
  ("reports" ∈ dirs w \/ can_write "reports" = true ->
   can_write (os_path_join "reports" (export_name time_time filename w)) = false ->
   exists w',
     export_content time_time can_write self content filename w = (Ok None, w')
     /\ files w' = files w
     /\ "reports" ∈ dirs w'
     /\ heap w' = heap w
     /\ ui w'
        = StErrorExporting
            (OSError (os_path_join "reports" (export_name time_time filename w)))
          :: ui w)
  /\ (("reports" ∉ dirs w) ->
      can_write "reports" = false ->
      exists w',
        export_content time_time can_write self content filename w
        = (Raise (OSError "reports"), w')
        /\ files w' = files w
        /\ dirs w' = dirs w
        /\ ui w' = ui w).
Proof.
  intros Hfree. split; [|by apply export_content_no_directory].
  intros Hdir Hcan. unfold export_content, os_makedirs, write_file.
  destruct filename as [[|ch r]|]; cbn [export_name] in Hcan; run; rewrite Hfree; run.
  all: destruct (bool_decide ("reports" ∈ dirs w)) eqn:Ed; run;
    [apply bool_decide_eq_true_1 in Ed
    |apply bool_decide_eq_false_1 in Ed; destruct Hdir as [Hin|Hmk]; [done|];
     rewrite Hmk; run].
  all: rewrite Hcan; run.
  all: eexists; split; [reflexivity|].
  all: cbn [files dirs heap ui export_name]; repeat split; set_solver.
Qed.

(** X19: when a regular file stands where the output directory should
    be, [export_content] raises [FileExistsError]: the error of
    [os.makedirs] is outside the [try] block and reaches the caller;
    nothing is written. *)
Theorem export_raises_when_directory_is_a_file (self : ContentGenerator)
    (content occupant : string) (filename : option string) (w : world) :
  files w !! "reports" = Some occupant ->
  exists w',
    export_content time_time can_write self content filename w
    = (Raise (FileExistsError "reports"), w')
    /\ files w' = files w
    /\ dirs w' = dirs w
    /\ ui w' = ui w.
Proof.
  intros Hfile. unfold export_content, os_makedirs.
  destruct filename as [[|ch r]|]; run; rewrite Hfile; run.
  all: by eexists.
Qed.

End ExportFacts.

(** ** The indicators of a generator *)

Section MetricsFacts.

Import PyNum Generator Visualization.
Local Open Scope string_scope.

Variable text_generation : nat -> string -> api_outcome.
Variable time_time : nat -> Q.
Variable can_write : string -> bool.

Lemma half_hours (n : Z) : (round1 (inject_Z (30 * n) / 60) == inject_Z n / 2)%Q.
Proof.
  rewrite (round1_tenths _ (5 * n)); rewrite !inject_Z_mult; field.
Qed.

Lemma thirty_minutes (n : Z) :
  (1 <= n)%Z -> (round1 (inject_Z (30 * n) / inject_Z (max_Z n 1)) == 30)%Q.
Proof.
  intros Hn. unfold max_Z. destruct (Z.ltb_spec n 1) as [Hlt|_]; [lia|].
  assert (Hnz : ~ (inject_Z n == 0)%Q) by (apply inject_Z_nonzero; lia).
  rewrite (round1_tenths _ 300); rewrite !inject_Z_mult; by field.
Qed.

(** X20: in every state a generator reaches, with [n] the number of
    its completed generations, [calculate_kpis] returns [n] as the
    count, [12 n] as the cost saved, exactly [n / 2] as the hours
    saved - rounding to one decimal loses nothing - and, once there
    is a generation, exactly 30 minutes as the average. *)
Theorem kpis_of_a_generator (self : ContentGenerator) (w : world) :
  reachable text_generation time_time can_write self w ->
  exists (n : Z) kpis w',
    (0 <= n)%Z
    /\ stats_of w self = Some (n, 30 * n, 12 * n)%Z
    /\ calculate_kpis self w = (Ok kpis, w')
    /\ generations_count kpis = n
    /\ cost_saved_usd kpis = (12 * n)%Z
    /\ (time_saved_hours kpis == inject_Z n / 2)%Q
    /\ ((1 <= n)%Z -> (avg_time_per_generation kpis == 30)%Q).
Proof.
  intros Hr. destruct (reachable_stats _ _ _ _ _ Hr) as (n & Hn & Hs).
  destruct (calculate_kpis_spec _ _ _ _ _ Hs) as (w' & Hk & _).
  exists n. eexists _, w'. do 3 (split; [eassumption|]).
  cbn [generations_count cost_saved_usd time_saved_hours avg_time_per_generation].
  do 2 (split; [reflexivity|]). split; [apply half_hours|apply thirty_minutes].
Qed.

End MetricsFacts.

(** ** Semicolons *)

Section SemicolonFacts.

Import PyStr PyFormat PromptTemplates Generator.
Local Open Scope string_scope.

Lemma semicolon_cons (c : ascii) (s : string) :
  str_in ";" (String c s) = (if ascii_dec ";" c then true else str_in ";" s).
Proof.
  cbn [str_in String.prefix]. destruct (ascii_dec ";" c); [by destruct s|reflexivity].
Qed.

Lemma semicolon_app (a b : string) :
  str_in ";" a = false -> str_in ";" b = false -> str_in ";" (a +:+ b) = false.
Proof.
  intros Ha Hb. induction a as [|c a IH]; [exact Hb|].
  change (String c a +:+ b) with (String c (a +:+ b)).
  rewrite semicolon_cons in Ha |- *. destruct (ascii_dec ";" c); [done|by apply IH].
Qed.

Lemma semicolon_other (c : ascii) (s : string) :
  Ascii.eqb ";" c = false -> str_in ";" s = false -> str_in ";" (String c s) = false.
Proof.
  intros Hc Hs. rewrite semicolon_cons. destruct (ascii_dec ";" c) as [<-|]; [|exact Hs].
  by rewrite Ascii.eqb_refl in Hc.
Qed.

Lemma replace_semicolons_cons (c : ascii) (s : string) :
  str_replace (String c s) ";" ", "
  = if ascii_dec ";" c then ", " +:+ str_replace s ";" ", "
    else String c (str_replace s ";" ", ").
Proof.
  unfold str_replace. cbn [replace_go String.prefix String.length Nat.sub].
  destruct (ascii_dec ";" c); by destruct s.
Qed.

Lemma replace_semicolons_spec (features : string) :
  str_in ";" (str_replace features ";" ", ") = false
  /\ (str_in ";" features = false -> str_replace features ";" ", " = features).
Proof.
  induction features as [|c s [IH1 IH2]]; [by split|].
  rewrite replace_semicolons_cons, semicolon_cons.
  destruct (ascii_dec ";" c) as [<-|Hne].
  - split; [|discriminate]. by apply semicolon_app.
  - split.
    + rewrite semicolon_cons. by destruct (ascii_dec ";" c).
    + intros H. by rewrite IH2.
Qed.

(** X22: the features as the fallback texts show them,
    [features.replace(';', ', ')], contain no semicolon, and features
    without semicolon are shown as they are. *)
Theorem shown_features_have_no_semicolon (features : string) :
  str_in ";" (str_replace features ";" ", ") = false
  /\ (str_in ";" features = false -> str_replace features ";" ", " = features).
Proof. exact (replace_semicolons_spec features). Qed.

Ltac no_semicolon :=
  repeat first
    [ assumption
    | reflexivity
    | apply semicolon_other; [reflexivity|]
    | apply semicolon_app; [assumption|] ].

(** X23: when neither the name, nor the category, nor the target
    audience of a complete product holds a semicolon, no fallback
    content for it does, whatever its features: the semicolons that
    separate the features never reach the text. *)
Theorem fallback_content_has_no_semicolon (product_data : gmap string string)
    (name category features audience content_type tone language : string) :
  has_required product_data name category features audience ->
  In content_type content_types -> In tone tones -> In language languages ->
  str_in ";" name = false ->
  str_in ";" category = false ->
  str_in ";" audience = false ->
  exists s,
    _generate_fallback_content product_data content_type tone language = Ok s
    /\ str_in ";" s = false.
Proof.
  intros (Hn & Hy & Hf & Ha) Hc Ht Hl Sn Sc Sa.
  unfold _generate_fallback_content, getitem.
  rewrite Hn, Hy, Hf, Ha. run. unfold fallback_templates.
  pose proof (proj1 (replace_semicolons_spec features)) as Sf.
  revert Sf. generalize (str_replace features ";" ", "). intros features' Sf.
  cbn [In content_types] in Hc; destruct Hc as [?|[?|[?|[]]]]; subst;
  cbn [In tones] in Ht; destruct Ht as [?|[?|[?|[?|[]]]]]; subst;
  cbn [In languages] in Hl; destruct Hl as [?|[?|[]]]; subst.
  all: eexists; split; [vm_compute; reflexivity|].
  all: no_semicolon.
Qed.

End SemicolonFacts.

(** ** The results and the application *)

Section ResultFacts.

Import PyStr PyFormat PromptTemplates Generator Heap.
Local Open Scope string_scope.

Variable text_generation : nat -> string -> api_outcome.
Variable time_time : nat -> Q.

Lemma getitem_Ok {V : Type} (m : gmap string V) (k : string) (v : V) :
  getitem m k = Ok v -> m !! k = Some v.
Proof. unfold getitem. destruct (m !! k); by intros [= ->]. Qed.

Lemma returns_ret {A : Type} (a : A) (P : A -> Prop) : P a -> returns (mret a) P.
Proof. intros H w a' w' [= <- _]. exact H. Qed.

Lemma returns_bind {A B : Type} (m : M A) (k : A -> M B) (P : B -> Prop) :
  (forall a, returns (k a) P) -> returns (m ≫= k) P.
Proof.
  intros Hk w b w'. cbv beta delta [mbind M_bind].
  destruct (m w) as [[a|e] w1]; [apply Hk|discriminate].
Qed.

Lemma returns_bind_lift {A B : Type} (r : result A) (k : A -> M B) (P : B -> Prop) :
  (forall a, r = Ok a -> returns (k a) P) -> returns (lift r ≫= k) P.
Proof.
  intros Hk w b w'. cbv beta delta [mbind M_bind lift].
  destruct r as [a|e]; [by apply Hk|discriminate].
Qed.

Lemma returns_try {A : Type} (body : M A) (handler : exn -> M A) (P : A -> Prop) :
  returns body P -> (forall e, returns (handler e) P) -> returns (try_except body handler) P.
Proof.
  intros Hb Hh w a w'. unfold try_except.
  destruct (body w) as [[a'|e] w1] eqn:E.
  - intros [= <- _]. by apply (Hb _ _ _ E).
  - apply Hh.
Qed.

Lemma generate_shaped (self : ContentGenerator) (product_data : gmap string string)
    (content_type tone language : string) :
  returns (generate_content text_generation time_time self product_data
             content_type tone language)
    (shaped product_data content_type tone language).
Proof.
  unfold generate_content. apply returns_try; [|intros e].
  all: repeat first [ apply returns_bind_lift; intros ? ?
                    | apply returns_bind; intros ?
                    | progress cbv zeta ].
  all: apply returns_ret; unfold shaped, error_result; cbn.
  all: repeat split; try reflexivity; try by apply getitem_Ok.
  all: assumption.
Qed.

(** X24: whenever [generate_content] returns a result, the result
    names the product and echoes the three selectors, and it has one
    of two shapes: without error indicator it carries the
    recommendation of the tables for the content type and tone; with
    an error indicator it is the result of the catch-all handler -
    the apology as content, 0 as generation time and the advice to
    check the connection - whatever went wrong. *)
Theorem result_has_one_of_two_shapes (self : ContentGenerator)
    (product_data : gmap string string) (content_type tone language : string)
    (w w' : world) (r : GenerationResult) :
  generate_content text_generation time_time self product_data
    content_type tone language w = (Ok r, w') ->
  shaped product_data content_type tone language r.
Proof. apply generate_shaped. Qed.

End ResultFacts.

Section AppFacts.

Import PyStr PyFormat PromptTemplates Generator Heap Products App.
Local Open Scope string_scope.

Variable text_generation : nat -> string -> api_outcome.
Variable time_time : nat -> Q.

(** X25: [initialize_session_state] fills in the keys that are
    absent and touches nothing else: afterwards the three keys are
    there; a generator that was in the session is kept and the world
    is as it was, so a rerun of the script does not reset the
    counters; a generator that had to be built has zero counters;
    contents and products that were there are kept; and running it
    again on its own result changes nothing. *)
Theorem initialize_session_state_keeps_the_generator (s : session_state) (w : world) :
  exists self s' w',
    initialize_session_state s w = (Ok s', w')
    /\ ss_generator s' = Some self
    /\ ss_generated_content s' = Some (default None (ss_generated_content s))
    /\ ss_products s' = Some (default [] (ss_products s))
    /\ match ss_generator s with
       | Some old => self = old /\ w' = w
       | None => stats_of w' self = Some (0, 0, 0)%Z
                 /\ forall l, l <> generation_stats self -> heap w' !! l = heap w !! l
       end
    /\ forall w1, initialize_session_state s' w1 = (Ok s', w1).
Proof.
  destruct s as [[old|] content products]; unfold initialize_session_state;
    cbn [ss_generator ss_generated_content ss_products].
  - exists old. eexists _, _. run. split; [reflexivity|].
    cbn [ss_generator ss_generated_content ss_products]. by repeat split.
  - unfold __init__, alloc. run. eexists _, _, _. split; [reflexivity|].
    cbn [ss_generator ss_generated_content ss_products]. repeat split.
    + unfold stats_of. cbn [heap set_heap generation_stats].
      by rewrite list_lookup_middle.
    + cbn [heap set_heap generation_stats]. intros l Hl.
      destruct (decide (l < length (heap w))) as [Hlt|Hge].
      * by rewrite lookup_app_l.
      * rewrite !lookup_ge_None_2; [done|lia|rewrite length_app; cbn; lia].
Qed.


(** X26: the notice that fallback content is in use is shown only
    with the result of the catch-all handler: when the button shows
    it, the content stored in the session is the apology, not a
    generated or fallback text, and the result holds an error
    indicator. *)
Theorem fallback_notice_comes_with_the_apology (generator : ContentGenerator)
    (selected_product : option (gmap string string))
    (content_type tone language : string) (previous stored : option GenerationResult)
    (notices : list notice) (w w' : world) :
  generate_clicked text_generation time_time generator selected_product
    content_type tone language previous w = (Ok (stored, notices), w') ->
  In fallback_info notices ->
  exists r name timestamp e,
    stored = Some r
    /\ r = error_result name content_type tone language timestamp e
    /\ res_content r = "Sorry, there was an error generating content. Please try again.".
Proof.
  unfold generate_clicked.
  destruct selected_product as [product|]; [destruct (truthy (Some product))|].
  2, 3: intros [= <- <- <-] [H|[]]; discriminate H.
  cbv beta delta [mbind M_bind].
  destruct (generate_content text_generation time_time generator product
              content_type tone language w) as [[r|e0] w1] eqn:E; [|discriminate].
  pose proof (generate_shaped text_generation time_time _ _ _ _ _ _ _ _ E)
    as (_ & _ & _ & _ & Hshape).
  destruct (meta_error (res_metadata r)) as [e|].
  - intros [= <- <- <-] _. exists r. eexists _, _, e.
    split; [reflexivity|]. split; [exact Hshape|]. by rewrite Hshape.
  - intros [= <- <- <-] [].
Qed.


Lemma product_options_keep (label : string) (id : value)
    (after : list (gmap string value)) (options : gmap string value) :
  Forall listed after ->
  Forall (fun product => product_label product <> Ok label) after ->
  options !! label = Some id ->
  exists options',
    product_options_from options after = Ok options'
    /\ options' !! label = Some id.
Proof.
  revert options. induction after as [|product rest IH]; intros options Hall Hother Hl.
  - by exists options.
  - apply Forall_cons in Hall as [((name & Hn) & (cat & Hc) & (pid & Hp)) Hall].
    apply Forall_cons in Hother as [Hne Hother].
    assert (Hlab : product_label product = Ok (str name +:+ " (" +:+ str cat +:+ ")")).
    { unfold product_label, getitem. by rewrite Hn, Hc. }
    cbn [product_options_from]. rewrite Hlab. unfold getitem. rewrite Hp. run.
    apply IH; [assumption..|].
    rewrite lookup_insert_ne; [exact Hl|]. intros E. apply Hne. by rewrite Hlab, E.
Qed.

Lemma product_options_last (label : string) (id : value)
    (before after : list (gmap string value)) (product : gmap string value)
    (options : gmap string value) :
  Forall listed (before ++ product :: after)%list ->
  product_label product = Ok label ->
  product !! "ProductID" = Some id ->
  Forall (fun later => product_label later <> Ok label) after ->
  exists options',
    product_options_from options (before ++ product :: after)%list = Ok options'
    /\ options' !! label = Some id.
Proof.
  revert options. induction before as [|row rest IH]; intros options Hall Hl Hid Hother.
  - cbn [app] in *. apply Forall_cons in Hall as [_ Hall].
    cbn [product_options_from]. unfold getitem. rewrite Hl, Hid. run.
    apply product_options_keep; [assumption..|]. apply lookup_insert_eq.
  - cbn [app] in *.
    apply Forall_cons in Hall as [((name & Hn) & (cat & Hc) & (pid & Hp)) Hall].
    assert (Hlab : product_label row = Ok (str name +:+ " (" +:+ str cat +:+ ")")).
    { unfold product_label, getitem. by rewrite Hn, Hc. }
    cbn [product_options_from]. rewrite Hlab. unfold getitem. rewrite Hp. run.
    by apply IH.
Qed.

(** X28: in a catalog whose rows have a name, a category and an
    identifier, no two identifiers the same, the text chosen in the
    select box selects the last row that is offered under it: a row
    with the name and category of a later row cannot be selected. *)
Theorem select_box_takes_the_last_row (before after : list (gmap string value))
    (product : gmap string value) (label : string) :
  Forall listed (before ++ product :: after)%list ->
  NoDup (product_ids (before ++ product :: after)%list) ->
  product_label product = Ok label ->
  Forall (fun later => product_label later <> Ok label) after ->
  selected_product (before ++ product :: after)%list label = Ok (Some product).
Proof.
  intros Hall Hnodup Hl Hother.
  assert (Hlisted : listed product).
  { rewrite Forall_forall in Hall. apply Hall. apply list_elem_of_In, in_elt. }
  destruct Hlisted as (_ & _ & id & Hid).
  destruct (product_options_last label id before after product ∅ Hall Hl Hid Hother)
    as (options & Hoptions & Hlookup).
  unfold selected_product, product_options, getitem.
  rewrite Hoptions. run. rewrite Hlookup. run.
  apply get_product_by_id_unique; [|assumption|apply in_elt|assumption].
  eapply Forall_impl; [exact Hall|]. by intros row (_ & _ & H).
Qed.

End AppFacts.

(** ** The further properties on the examples *)

Section FurtherWitnesses.

Import PyStr PyFormat PyNum PromptTemplates Visualization Generator Heap Products App.
Import Examples FurtherExamples.
Local Open Scope string_scope.

Lemma aqua_bottle_complete :
  has_required aqua_bottle "Aqua Bottle" "Drinkware" "Insulated;BPA-free" "Athletes".
Proof. repeat split; vm_compute; reflexivity. Qed.

Lemma prompt_mentions_product_witness :
  exists tpl prompt,
    get_prompt_template "Email" "Luxury" "French" = Ok tpl
    /\ format tpl (prompt_kwargs "Aqua Bottle" "Drinkware" "Insulated;BPA-free" "Athletes")
       = Ok prompt
    /\ str_in "Aqua Bottle" prompt = true
    /\ str_in "Drinkware" prompt = true
    /\ str_in "Insulated;BPA-free" prompt = true
    /\ str_in "Athletes" prompt = true.
Proof.
  apply (prompt_mentions_product "Email" "Luxury" "French"); simpl; auto.
Defined.

Lemma fallback_mentions_product_witness :
  exists s,
    _generate_fallback_content aqua_bottle "Social Post" "Casual" "English" = Ok s
    /\ str_in "Aqua Bottle" s = true
    /\ str_in (str_replace "Insulated;BPA-free" ";" ", ") s = true
    /\ str_in "Athletes" s = true
    /\ (("Social Post" = "Social Post" /\ "Casual" = "Playful")
        \/ str_in "Drinkware" s = true).
Proof.
  apply (fallback_mentions_product aqua_bottle "Aqua Bottle" "Drinkware"
           "Insulated;BPA-free" "Athletes" "Social Post" "Casual" "English").
  - apply aqua_bottle_complete.
  - simpl; auto.
  - simpl; auto.
  - simpl; auto.
Defined.

Lemma one_model_call_per_generation_witness :
  exists tpl prompt,
    get_prompt_template "Product Description" "Casual" "English" = Ok tpl
    /\ format tpl (prompt_kwargs "Aqua Bottle" "Drinkware" "Insulated;BPA-free" "Athletes")
       = Ok prompt
    /\ api_log (snd (generate_content unavailable (seconds_from 1700000000) generator
                       aqua_bottle "Product Description" "Casual" "English" started))
       = prompt :: api_log started.
Proof.
  apply (one_model_call_per_generation unavailable (seconds_from 1700000000) generator
           aqua_bottle "Aqua Bottle" "Drinkware" "Insulated;BPA-free" "Athletes"
           "Product Description" "Casual" "English" started 0 0 0).
  - apply aqua_bottle_complete.
  - simpl; auto.
  - simpl; auto.
  - simpl; auto.
  - vm_compute; reflexivity.
Defined.

Lemma answered_generation_witness :
  exists rec w',
    get_recommendations "Product Description" "Casual" = Ok rec
    /\ generate_content (answering (Some "  Great bottle!  ")) (seconds_from 1700000000)
         generator aqua_bottle "Product Description" "Casual" "English" started
       = (Ok (normal_result "Aqua Bottle" "Product Description" "Casual" "English"
                (strip "  Great bottle!  ") rec
                (seconds_from 1700000000 (S (clock started))
                 - seconds_from 1700000000 (clock started))
                (seconds_from 1700000000 (S (S (clock started))))), w')
    /\ ui w' = ui started.
Proof.
  apply (answered_generation (answering (Some "  Great bottle!  "))
           (seconds_from 1700000000) generator
           aqua_bottle "Aqua Bottle" "Drinkware" "Insulated;BPA-free" "Athletes"
           "Product Description" "Casual" "English" "  Great bottle!  " started 0 0 0).
  - apply aqua_bottle_complete.
  - simpl; auto.
  - simpl; auto.
  - simpl; auto.
  - vm_compute; reflexivity.
  - reflexivity.
Defined.

Lemma generation_time_not_negative_witness :
  exists r w',
    generate_content unavailable (seconds_from 1700000000) generator aqua_bottle
      "Product Description" "Casual" "English" started = (Ok r, w')
    /\ (0 <= res_generation_time r)%Q
    /\ (meta_error (res_metadata r) = None ->
        res_generation_time r
        = (seconds_from 1700000000 (S (clock started))
           - seconds_from 1700000000 (clock started))%Q).
Proof.
  apply (generation_time_not_negative unavailable (seconds_from 1700000000) generator
           aqua_bottle "Aqua Bottle" "Drinkware" "Insulated;BPA-free" "Athletes"
           "Product Description" "Casual" "English" started 0 0 0).
  - apply aqua_bottle_complete.
  - simpl; auto.
  - simpl; auto.
  - simpl; auto.
  - vm_compute; reflexivity.
  - vm_compute; discriminate.
Defined.

Lemma fallback_warning_witness :
  ui (snd (generate_content unavailable (seconds_from 1700000000) generator aqua_bottle
             "Product Description" "Casual" "English" started))
  = unavailable_warning :: ui started.
Proof.
  apply (fallback_warning unavailable (seconds_from 1700000000) generator
           aqua_bottle "Aqua Bottle" "Drinkware" "Insulated;BPA-free" "Athletes"
           "Product Description" "Casual" "English" started 0 0 0
           (ApiException "503 Service Unavailable")).
  - apply aqua_bottle_complete.
  - simpl; auto.
  - simpl; auto.
  - simpl; auto.
  - vm_compute; reflexivity.
  - reflexivity.
Defined.

Lemma unknown_selector_gives_error_result_witness :
  exists e,
    ((~ In "Product Description" content_types /\ e = KeyError "Product Description")
     \/ (In "Product Description" content_types /\ ~ In "Formal" tones
         /\ e = KeyError "Formal")
     \/ (In "Product Description" content_types /\ In "Formal" tones
         /\ ~ In "English" languages /\ e = KeyError "English"))
    /\ generate_content unavailable (seconds_from 1700000000) generator aqua_bottle
         "Product Description" "Formal" "English" started
       = (Ok (error_result "Aqua Bottle" "Product Description" "Formal" "English"
                (seconds_from 1700000000 (clock started)) e),
          tick (push_ui (StErrorGenerating e) started)).
Proof.
  apply (unknown_selector_gives_error_result unavailable (seconds_from 1700000000)
           generator aqua_bottle "Aqua Bottle" "Product Description" "Formal" "English"
           started).
  - vm_compute; reflexivity.
  - intros (_ & H & _). simpl in H. intuition discriminate.
Defined.

Lemma snapshot_survives_generation_witness :
  exists l w1,
    get_generation_stats generator started = (Ok l, w1)
    /\ heap w1 !! l = heap started !! generation_stats generator
    /\ (forall product_data content_type tone language,
          heap (snd (generate_content unavailable (seconds_from 1700000000) generator
                       product_data content_type tone language w1)) !! l
          = heap started !! generation_stats generator)
    /\ (forall product_data name category features audience content_type tone language,
          has_required product_data name category features audience ->
          In content_type content_types -> In tone tones -> In language languages ->
          stats_of (snd (generate_content unavailable (seconds_from 1700000000) generator
                           product_data content_type tone language w1)) generator
          = Some (0 + 1, 0 + 30, 0 + 12)%Z).
Proof.
  apply (snapshot_survives_generation unavailable (seconds_from 1700000000)
           generator started 0 0 0).
  vm_compute; reflexivity.
Defined.

Lemma generators_have_their_own_counters_witness :
  stats_of started_twice generator = Some (0, 0, 0)%Z
  /\ stats_of started_twice second_generator = Some (0, 0, 0)%Z
  /\ stats_of (snd (generate_content unavailable (seconds_from 1700000000)
                      second_generator aqua_bottle
                      "Product Description" "Casual" "English" started_twice)) generator
     = Some (0, 0, 0)%Z.
Proof.
  apply (generators_have_their_own_counters unavailable (seconds_from 1700000000)
           generator second_generator started started_twice 0 0 0).
  - vm_compute; reflexivity.
  - reflexivity.
Defined.

Lemma get_product_by_id_finds_each_witness :
  get_product_by_id [bottle_row; lamp_row] (VInt 2) = Ok (Some lamp_row).
Proof.
  apply (get_product_by_id_finds_each [bottle_row; lamp_row] lamp_row (VInt 2)).
  - constructor; [exists (VInt 1); vm_compute; reflexivity|].
    constructor; [exists (VInt 2); vm_compute; reflexivity|]. constructor.
  - vm_compute. apply NoDup_cons. split; [|apply NoDup_singleton].
    rewrite list_elem_of_singleton. discriminate.
  - simpl; auto.
  - vm_compute; reflexivity.
Defined.

Lemma exports_in_the_same_second_collide_witness :
  exists w1 w2,
    export_content (quarter_seconds_from 1700000000) any_path_writable generator
      "first draft" None started
    = (Ok (Some (default_path (quarter_seconds_from 1700000000) started)), w1)
    /\ export_content (quarter_seconds_from 1700000000) any_path_writable generator
         "second draft" None w1
       = (Ok (Some (default_path (quarter_seconds_from 1700000000) started)), w2)
    /\ files w2 !! default_path (quarter_seconds_from 1700000000) started
       = Some "second draft".
Proof.
  destruct (exports_in_the_same_second_collide (quarter_seconds_from 1700000000)
              any_path_writable generator "first draft" "second draft" started)
    as [H|(_ & H & _)].
  - vm_compute; reflexivity.
  - reflexivity.
  - vm_compute; reflexivity.
  - exact H.
  - discriminate H.
Defined.

Lemma export_fails_by_none_or_by_raising_witness :
  exists w',
    export_content (seconds_from 1700000000) only_reports_writable generator
      "hello" None started = (Ok None, w')
    /\ files w' = files started
    /\ "reports" ∈ dirs w'
    /\ heap w' = heap started
    /\ ui w'
       = StErrorExporting
           (OSError (os_path_join "reports"
                       (export_name (seconds_from 1700000000) None started)))
         :: ui started.
Proof.
  apply (proj1 (export_fails_by_none_or_by_raising (seconds_from 1700000000)
                  only_reports_writable generator "hello" None started
                  ltac:(vm_compute; reflexivity))).
  - right. reflexivity.
  - vm_compute; reflexivity.
Defined.

Lemma export_raises_when_directory_is_a_file_witness :
  exists w',
    export_content (seconds_from 1700000000) any_path_writable generator
      "hello" None reports_is_a_file
    = (Raise (FileExistsError "reports"), w')
    /\ files w' = files reports_is_a_file
    /\ dirs w' = dirs reports_is_a_file
    /\ ui w' = ui reports_is_a_file.
Proof.
  apply (export_raises_when_directory_is_a_file (seconds_from 1700000000)
           any_path_writable generator "hello" "notes" None reports_is_a_file).
  vm_compute; reflexivity.
Defined.

Lemma kpis_of_a_generator_witness :
  exists (n : Z) kpis w',
    (0 <= n)%Z
    /\ stats_of after_one generator = Some (n, 30 * n, 12 * n)%Z
    /\ calculate_kpis generator after_one = (Ok kpis, w')
    /\ generations_count kpis = n
    /\ cost_saved_usd kpis = (12 * n)%Z
    /\ (time_saved_hours kpis == inject_Z n / 2)%Q
    /\ ((1 <= n)%Z -> (avg_time_per_generation kpis == 30)%Q).
Proof.
  apply (kpis_of_a_generator (answering (Some "Great bottle!"))
           (seconds_from 1700000000) any_path_writable generator after_one).
  apply reach_generate. apply (reach_init _ _ _ _ empty_world). reflexivity.
Defined.

Lemma fallback_content_has_no_semicolon_witness :
  exists s,
    _generate_fallback_content aqua_bottle "Email" "Professional" "French" = Ok s
    /\ str_in ";" s = false.
Proof.
  apply (fallback_content_has_no_semicolon aqua_bottle "Aqua Bottle" "Drinkware"
           "Insulated;BPA-free" "Athletes" "Email" "Professional" "French").
  - apply aqua_bottle_complete.
  - simpl; auto.
  - simpl; auto.
  - simpl; auto.
  - reflexivity.
  - reflexivity.
  - reflexivity.
Defined.

Lemma result_has_one_of_two_shapes_witness :
  shaped (delete "Category" aqua_bottle) "Product Description" "Casual" "English"
    (error_result "Aqua Bottle" "Product Description" "Casual" "English"
       (seconds_from 1700000000 (clock started)) (KeyError "Category")).
Proof.
  apply (result_has_one_of_two_shapes unavailable (seconds_from 1700000000) generator
           (delete "Category" aqua_bottle) "Product Description" "Casual" "English"
           started (tick (push_ui (StErrorGenerating (KeyError "Category")) started))).
  vm_compute; reflexivity.
Defined.

Lemma fallback_notice_comes_with_the_apology_witness :
  exists r name timestamp e,
    Some (error_result "Aqua Bottle" "Product Description" "Casual" "English"
            (seconds_from 1700000000 (clock started)) (KeyError "Category"))
    = Some r
    /\ r = error_result name "Product Description" "Casual" "English" timestamp e
    /\ res_content r = "Sorry, there was an error generating content. Please try again.".
Proof.
  apply (fallback_notice_comes_with_the_apology unavailable (seconds_from 1700000000)
           generator (Some (delete "Category" aqua_bottle))
           "Product Description" "Casual" "English" None
           (Some (error_result "Aqua Bottle" "Product Description" "Casual" "English"
                    (seconds_from 1700000000 (clock started)) (KeyError "Category")))
           [fallback_info] started
           (tick (push_ui (StErrorGenerating (KeyError "Category")) started))).
  - vm_compute; reflexivity.
  - left; reflexivity.
Defined.


Lemma select_box_takes_the_last_row_witness :
  selected_product [bottle_row; lamp_row; new_bottle_row] "Aqua Bottle (Drinkware)"
  = Ok (Some new_bottle_row).
Proof.
  apply (select_box_takes_the_last_row [bottle_row; lamp_row] [] new_bottle_row
           "Aqua Bottle (Drinkware)").
  - repeat constructor; eexists; vm_compute; reflexivity.
  - vm_compute. apply NoDup_cons. split; [|apply NoDup_cons; split].
    + rewrite !elem_of_cons, elem_of_nil. intros [H|[H|[]]]; discriminate H.
    + rewrite list_elem_of_singleton. discriminate.
    + apply NoDup_singleton.
  - vm_compute; reflexivity.
  - constructor.
Defined.

End FurtherWitnesses.
